(** * Ingestion and reconciliation core of the commit logger

    A shallow embedding of the webhook handler
    ([services/github_webhook_handler.py]), of the two storage services
    ([services/database_service.py] and [legacy/database_service.py]), of the
    agent orchestrator ([legacy/agent_orchestrator.py]) and of the repository
    manager ([legacy/repository_manager.py]), followed by the properties of
    the ingestion-and-reconciliation core that hold of them.

    Python values are a small dynamically typed universe, so that [d['k']],
    [d.get('k', default)], iteration and [+] fail where Python fails.
    Stateful code is written in a state-and-exception monad in which a raised
    exception keeps the writes that were committed before it.  Every storage
    method commits one transaction or rolls it back, and is a function from
    a database to an error or a result with the new database. *)

From Stdlib Require Import String Ascii List ZArith Bool Lia Arith.
From Stdlib Require Import Sorting.Sorted Sorting.Permutation.
Import ListNotations.

Set Warnings "-register-all".
Local Open Scope string_scope.
Local Open Scope list_scope.

(* ===================================================================== *)
(** ** Python values and exceptions *)
(* ===================================================================== *)

(** The values that travel through the handlers: what [json.loads] yields
    (numbers are integers here), plus [datetime] objects, which the handlers
    build and which the database driver returns for [TIMESTAMP] columns.
    A [dict] keeps its insertion order, so it is an association list. *)
Inductive pyval : Type :=
| PNone
| PBool (b : bool)
| PInt (n : Z)
| PStr (s : string)
| PDatetime (t : Z)
| PList (l : list pyval)
| PDict (d : list (string * pyval)).

(** Exceptions, by class.  [DataStorageError ctx e] is what
    [raise DataStorageError(f"<ctx>: {str(e)}")] raises while handling [e]. *)
Inductive exn : Type :=
| KeyError (key : string)
| TypeError (msg : string)
| AttributeError (msg : string)
| ValueError (msg : string)
| JSONDecodeError
| IntegrityError (msg : string)
| ProgrammingError (msg : string)
| DataError (msg : string)
| BackendError (msg : string)
| GitRepositoryError (context : string) (cause : exn)
| DataStorageError (context : string) (cause : exn).

Inductive res (A : Type) : Type :=
| Ok (a : A)
| Raise (e : exn).
Arguments Ok {A} a.
Arguments Raise {A} e.

(** A computation over a state [S]: the state that comes back with a raised
    exception holds whatever was committed before the exception. *)
Definition M (S A : Type) : Type := S -> res A * S.

Definition ret {S A} (a : A) : M S A := fun s => (Ok a, s).

Definition bind {S A B} (c : M S A) (k : A -> M S B) : M S B :=
  fun s => match c s with
           | (Ok a, s') => k a s'
           | (Raise e, s') => (Raise e, s')
           end.

Definition raise {S A} (e : exn) : M S A := fun s => (Raise e, s).

(** A pure step that may raise. *)
Definition lift {S A} (r : res A) : M S A := fun s => (r, s).

(** [try: body / except Exception as e: raise DataStorageError(f"ctx: ...")]. *)
Definition wrap {S A} (ctx : string) (body : M S A) : M S A :=
  fun s => match body s with
           | (Ok a, s') => (Ok a, s')
           | (Raise e, s') => (Raise (DataStorageError ctx e), s')
           end.

(** [try: body / except Exception as e: handler(e)]. *)
Definition try_except {S A} (body : M S A) (handler : exn -> M S A) : M S A :=
  fun s => match body s with
           | (Ok a, s') => (Ok a, s')
           | (Raise e, s') => handler e s'
           end.

Declare Scope py_scope.
Delimit Scope py_scope with py.
Notation "x <- c ;; k" := (bind c (fun x => k))
  (at level 100, c at next level, right associativity) : py_scope.
Notation "c ;;; k" := (bind c (fun _ => k))
  (at level 100, right associativity) : py_scope.
Local Open Scope py_scope.

(** Pure steps that may raise, composed without a state. *)
Definition rbind {A B} (r : res A) (k : A -> res B) : res B :=
  match r with
  | Ok a => k a
  | Raise e => Raise e
  end.
Notation "x <~ r ;; k" := (rbind r (fun x => k))
  (at level 100, r at next level, right associativity) : py_scope.

(* --------------------------------------------------------------------- *)
(** *** Dictionaries, subscripts, iteration *)

Fixpoint assoc (k : string) (d : list (string * pyval)) : option pyval :=
  match d with
  | [] => None
  | (k', v) :: d' => if String.eqb k k' then Some v else assoc k d'
  end.

(** [v[k]] for a string key [k]. *)
Definition py_getitem (v : pyval) (k : string) : res pyval :=
  match v with
  | PDict d => match assoc k d with
               | Some x => Ok x
               | None => Raise (KeyError k)
               end
  | PStr _ => Raise (TypeError "string indices must be integers")
  | PList _ => Raise (TypeError "list indices must be integers or slices, not str")
  | _ => Raise (TypeError "object is not subscriptable")
  end.

(** [v.get(k, default)]: only a [dict] has the method. *)
Definition py_get (v : pyval) (k : string) (default : pyval) : res pyval :=
  match v with
  | PDict d => match assoc k d with
               | Some x => Ok x
               | None => Ok default
               end
  | _ => Raise (AttributeError "object has no attribute 'get'")
  end.

Fixpoint chars (s : string) : list pyval :=
  match s with
  | EmptyString => []
  | String c s' => PStr (String c EmptyString) :: chars s'
  end.

(** [for x in v]: a list yields its items, a dict its keys, a string its
    characters; nothing else is iterable. *)
Definition py_iter (v : pyval) : res (list pyval) :=
  match v with
  | PList l => Ok l
  | PDict d => Ok (map (fun kv => PStr (fst kv)) d)
  | PStr s => Ok (chars s)
  | _ => Raise (TypeError "object is not iterable")
  end.

Definition as_int (v : pyval) : option Z :=
  match v with
  | PInt n => Some n
  | PBool b => Some (if b then 1 else 0)%Z
  | _ => None
  end.

(** [a + b]. *)
Definition py_add (a b : pyval) : res pyval :=
  match a, b with
  | PList l1, PList l2 => Ok (PList (l1 ++ l2))
  | PStr s1, PStr s2 => Ok (PStr (s1 ++ s2))
  | _, _ => match as_int a, as_int b with
            | Some x, Some y => Ok (PInt (x + y))
            | _, _ => Raise (TypeError "unsupported operand type(s) for +")
            end
  end.

(** Truthiness, for [if v:] and [v or default]. *)
Definition truthy (v : pyval) : bool :=
  match v with
  | PNone => false
  | PBool b => b
  | PInt n => negb (n =? 0)%Z
  | PStr s => negb (String.eqb s "")
  | PDatetime _ => true
  | PList l => match l with [] => false | _ => true end
  | PDict d => match d with [] => false | _ => true end
  end.

(* --------------------------------------------------------------------- *)
(** *** Strings *)

(** [s.replace(old, new)] for a non-empty [old]: every occurrence, leftmost
    first, without overlap.  [skip] counts the characters of a matched
    occurrence that are still to be dropped. *)
Fixpoint replace_from (old new s : string) (skip : nat) : string :=
  match s with
  | EmptyString => EmptyString
  | String c s' =>
      match skip with
      | S n => replace_from old new s' n
      | O => if String.prefix old s
             then new ++ replace_from old new s' (String.length old - 1)
             else String c (replace_from old new s' 0)
      end
  end.

Definition str_replace (old new s : string) : string := replace_from old new s 0.

(** [v.replace(old, new)] where [v] is expected to be a [str]. *)
Definition py_replace (v : pyval) (old new : string) : res string :=
  match v with
  | PStr s => Ok (str_replace old new s)
  | _ => Raise (AttributeError "object has no attribute 'replace'")
  end.

(** A [str] is a sequence of characters with codes below 256; the ASCII
    ones are those below 128. *)
Definition is_ascii_char (c : ascii) : bool := (nat_of_ascii c <? 128)%nat.

Fixpoint is_ascii (s : string) : bool :=
  match s with
  | EmptyString => true
  | String c s' => is_ascii_char c && is_ascii s'
  end.

(** [hmac.compare_digest(a, b)] on two [str]: refuses non-ASCII text. *)
Definition compare_digest (a b : string) : res bool :=
  if is_ascii a && is_ascii b then Ok (String.eqb a b)
  else Raise (TypeError "comparing strings with non-ASCII characters is not supported").

(* --------------------------------------------------------------------- *)
(** *** JSON serialisation *)

(** What [json.dumps] accepts: everything but a [datetime], at any depth. *)
Fixpoint json_serializable (v : pyval) : bool :=
  match v with
  | PDatetime _ => false
  | PList l => forallb json_serializable l
  | PDict d =>
      (fix fields (d : list (string * pyval)) : bool :=
         match d with
         | [] => true
         | (_, x) :: d' => json_serializable x && fields d'
         end) d
  | _ => true
  end.

(** [json.dumps(v)], kept as the value a [JSONB] column then holds. *)
Definition json_dumps (v : pyval) : res pyval :=
  if json_serializable v then Ok v
  else Raise (TypeError "Object of type datetime is not JSON serializable").

(* --------------------------------------------------------------------- *)
(** *** SQL helpers *)

Fixpoint all_blank (s : string) : bool :=
  match s with
  | EmptyString => true
  | String c s' => Ascii.eqb c " "%char && all_blank s'
  end.

(** Storing [s] in a [VARCHAR(n)] column: a longer string is an error unless
    the excess is blank, in which case it is cut to [n] characters. *)
Definition varchar (n : nat) (s : string) : res string :=
  if (String.length s <=? n)%nat then Ok s
  else if all_blank (String.substring n (String.length s - n) s)
       then Ok (String.substring 0 n s)
       else Raise (DataError "value too long for type character varying").

(** A query parameter bound to a text column.  [None] is [NULL] and a [str]
    is itself; other Python values are outside this model and are reported
    as a driver error. *)
Definition text_param (v : pyval) : res (option string) :=
  match v with
  | PNone => Ok None
  | PStr s => Ok (Some s)
  | _ => Raise (ProgrammingError "parameter is not text")
  end.

(** A [str] of at most [n] characters, and the same or [None]. *)
Definition short_text (n : nat) (v : pyval) : bool :=
  match v with
  | PStr s => (String.length s <=? n)%nat
  | _ => false
  end.


(** A file path, as the platform lists it in a push payload. *)
Definition is_path (v : pyval) : Prop := exists p, v = PStr p.


(** A parameter bound to a [TIMESTAMP] column: a [datetime] or [NULL]. *)
Definition timestamp_param (v : pyval) : res (option Z) :=
  match v with
  | PNone => Ok None
  | PDatetime t => Ok (Some t)
  | _ => Raise (ProgrammingError "parameter is not a timestamp")
  end.

Definition not_null {A} (column : string) (v : option A) : res A :=
  match v with
  | Some x => Ok x
  | None => Raise (IntegrityError ("null value in column " ++ column))
  end.

(** [VARCHAR(n)] applied to a nullable value. *)
Definition varchar_opt (n : nat) (v : option string) : res (option string) :=
  match v with
  | None => Ok None
  | Some s => s' <~ varchar n s ;; Ok (Some s')
  end.

(** Three-valued logic of [WHERE]: [None] is SQL's unknown. *)
Definition sql_and (a b : option bool) : option bool :=
  match a, b with
  | Some false, _ | _, Some false => Some false
  | Some true, Some true => Some true
  | _, _ => None
  end.

Definition sql_or (a b : option bool) : option bool :=
  match a, b with
  | Some true, _ | _, Some true => Some true
  | Some false, Some false => Some false
  | _, _ => None
  end.

Definition sql_eq (a : option string) (b : string) : option bool :=
  match a with
  | Some x => Some (String.eqb x b)
  | None => None
  end.

Definition sql_neq (a : option string) (b : string) : option bool :=
  match a with
  | Some x => Some (negb (String.eqb x b))
  | None => None
  end.

Definition sql_is_null {A} (a : option A) : option bool :=
  match a with
  | Some _ => Some false
  | None => Some true
  end.

(** A row is selected when the [WHERE] condition is true, not unknown. *)
Definition sql_holds (c : option bool) : bool :=
  match c with
  | Some true => true
  | _ => false
  end.

(** [ORDER BY key DESC] / [ASC] as a stable insertion sort over the table. *)
Fixpoint insert_by {A} (le : A -> A -> bool) (x : A) (l : list A) : list A :=
  match l with
  | [] => [x]
  | y :: l' => if le x y then x :: l else y :: insert_by le x l'
  end.

Definition sort_by {A} (le : A -> A -> bool) (l : list A) : list A :=
  fold_right (insert_by le) [] l.

Definition order_by_desc {A} (key : A -> Z) : list A -> list A :=
  sort_by (fun x y => (key y <=? key x)%Z).

Definition order_by_asc {A} (key : A -> Z) : list A -> list A :=
  sort_by (fun x y => (key x <=? key y)%Z).

(* ===================================================================== *)
(** ** The storage service of [services/database_service.py] *)
(* ===================================================================== *)

Module Services.

(** [commits]: [commit_hash VARCHAR(40) UNIQUE NOT NULL]; there is no
    repository column besides the free-text [repository_path]. *)
Record commit : Type := {
  id : Z;
  commit_hash : string;
  author : string;
  message : string;
  timestamp_commit : Z;
  timestamp_logged : Z;
  branch : option string;
  repository_path : option string;
  changed_files : pyval;
  metadata : pyval
}.

(** [agent_interactions]: [commit_id INTEGER REFERENCES commits(id)]. *)
Record interaction : Type := {
  ai_id : Z;
  commit_id : option Z;
  agent_type : string;
  interaction_type : string;
  input_data : pyval;
  output_data : pyval;
  ai_timestamp : Z;
  status : option string
}.

(** [github_events]: [processed BOOLEAN DEFAULT FALSE]. *)
Record event : Type := {
  ev_id : Z;
  event_type : string;
  repository : string;
  ev_commit_hash : option string;
  event_data : pyval;
  ev_timestamp : Z;
  processed : bool
}.

(** The database (tables and the last value of each [SERIAL] sequence) and
    the wall clock: [clock n] is the [n]-th reading of the current time. *)
Record world : Type := {
  commits : list commit;
  commits_seq : Z;
  agent_interactions : list interaction;
  agent_interactions_seq : Z;
  github_events : list event;
  github_events_seq : Z;
  clock : nat -> Z;
  ticks : nat
}.

Definition current_time (w : world) : Z := clock w (ticks w).

Definition tick (w : world) : world :=
  {| commits := commits w; commits_seq := commits_seq w;
     agent_interactions := agent_interactions w;
     agent_interactions_seq := agent_interactions_seq w;
     github_events := github_events w; github_events_seq := github_events_seq w;
     clock := clock w; ticks := S (ticks w) |}.

(** [datetime.now()]. *)
Definition datetime_now : M world Z := fun w => (Ok (current_time w), tick w).

(** One committed transaction: on an error the connection is rolled back
    and the database is as it was. *)
Definition transaction {A} (ctx : string) (stmt : world -> res (A * world)) : M world A :=
  fun w => match stmt w with
           | Ok (a, w') => (Ok a, w')
           | Raise e => (Raise (DataStorageError ctx e), w)
           end.

(* --------------------------------------------------------------------- *)
(** *** [save_commit] *)

Record commit_params : Type := {
  p_commit_hash : pyval;
  p_author : pyval;
  p_message : pyval;
  p_timestamp_commit : pyval;
  p_branch : pyval;
  p_repository_path : pyval;
  p_changed_files : pyval;
  p_metadata : pyval
}.

(** The parameter tuple of the [INSERT], evaluated left to right. *)
Definition commit_params_of (commit_data : pyval) : res commit_params :=
  h <~ py_getitem commit_data "commit_hash" ;;
  a <~ py_getitem commit_data "author" ;;
  m <~ py_getitem commit_data "message" ;;
  t <~ py_getitem commit_data "timestamp_commit" ;;
  b <~ py_get commit_data "branch" PNone ;;
  rp <~ py_get commit_data "repository_path" PNone ;;
  cf0 <~ py_get commit_data "changed_files" (PList []) ;;
  cf <~ json_dumps cf0 ;;
  md0 <~ py_get commit_data "metadata" (PDict []) ;;
  md <~ json_dumps md0 ;;
  Ok {| p_commit_hash := h; p_author := a; p_message := m;
        p_timestamp_commit := t; p_branch := b; p_repository_path := rp;
        p_changed_files := cf; p_metadata := md |}.

(** The row proposed for insertion, with the column types and [NOT NULL]
    constraints applied. *)
Definition proposed_commit (p : commit_params) (new_id now : Z) : res commit :=
  h0 <~ text_param (p_commit_hash p) ;;
  a0 <~ text_param (p_author p) ;;
  m0 <~ text_param (p_message p) ;;
  t0 <~ timestamp_param (p_timestamp_commit p) ;;
  b0 <~ text_param (p_branch p) ;;
  rp <~ text_param (p_repository_path p) ;;
  h1 <~ not_null "commit_hash" h0 ;;
  h <~ varchar 40 h1 ;;
  a1 <~ not_null "author" a0 ;;
  a <~ varchar 255 a1 ;;
  m <~ not_null "message" m0 ;;
  t <~ not_null "timestamp_commit" t0 ;;
  b <~ varchar_opt 255 b0 ;;
  Ok {| id := new_id; commit_hash := h; author := a; message := m;
        timestamp_commit := t; timestamp_logged := now; branch := b;
        repository_path := rp; changed_files := p_changed_files p;
        metadata := p_metadata p |}.

(** [ON CONFLICT (commit_hash) DO UPDATE SET ...]: the stored row keeps its
    [id] and [timestamp_logged] and takes every other column of [new]. *)
Definition overwrite (old new : commit) : commit :=
  {| id := id old; commit_hash := commit_hash old; author := author new;
     message := message new; timestamp_commit := timestamp_commit new;
     timestamp_logged := timestamp_logged old; branch := branch new;
     repository_path := repository_path new;
     changed_files := changed_files new; metadata := metadata new |}.

(** Insert [new], or overwrite the row that has its hash; returns the
    table and the [id] of the row written ([RETURNING id]). *)
Fixpoint upsert (new : commit) (rows : list commit) : list commit * Z :=
  match rows with
  | [] => ([new], id new)
  | r :: rows' =>
      if String.eqb (commit_hash r) (commit_hash new)
      then (overwrite r new :: rows', id r)
      else let (rows'', i) := upsert new rows' in (r :: rows'', i)
  end.

Definition set_commits (w : world) (rows : list commit) (seq : Z) : world :=
  {| commits := rows; commits_seq := seq;
     agent_interactions := agent_interactions w;
     agent_interactions_seq := agent_interactions_seq w;
     github_events := github_events w; github_events_seq := github_events_seq w;
     clock := clock w; ticks := S (ticks w) |}.

Definition insert_commit (p : commit_params) (w : world) : res (Z * world) :=
  let new_id := (commits_seq w + 1)%Z in
  new <~ proposed_commit p new_id (current_time w) ;;
  let (rows, i) := upsert new (commits w) in
  Ok (i, set_commits w rows new_id).

Definition save_commit (commit_data : pyval) : M world Z :=
  transaction "Failed to save commit"
    (fun w => p <~ commit_params_of commit_data ;; insert_commit p w).

(* --------------------------------------------------------------------- *)
(** *** [get_commit_by_hash] *)

(** [SELECT * FROM commits WHERE commit_hash = %s] and [fetchone()]. *)
Definition select_by_hash (h : option string) (rows : list commit) : option commit :=
  match h with
  | None => None
  | Some s => find (fun r => String.eqb (commit_hash r) s) rows
  end.

Definition get_commit_by_hash (commit_hash : pyval) : M world (option commit) :=
  transaction "Failed to get commit"
    (fun w => h <~ text_param commit_hash ;;
              Ok (select_by_hash h (commits w), w)).

(** A commit with hash [h] is in the table. *)
Definition stored (h : string) (w : world) : Prop :=
  In h (map commit_hash (commits w)).

(* --------------------------------------------------------------------- *)
(** *** [save_agent_interaction] *)

Definition references_commit (rows : list commit) (commit_id : Z) : bool :=
  existsb (fun r => (id r =? commit_id)%Z) rows.

Definition set_interactions (w : world) (rows : list interaction) (seq : Z) : world :=
  {| commits := commits w; commits_seq := commits_seq w;
     agent_interactions := rows; agent_interactions_seq := seq;
     github_events := github_events w; github_events_seq := github_events_seq w;
     clock := clock w; ticks := S (ticks w) |}.

Definition insert_interaction (commit_id : Z) (agent_type interaction_type : string)
    (input_data output_data : pyval) (status : string) (w : world)
    : res (Z * world) :=
  i <~ json_dumps input_data ;;
  o <~ json_dumps output_data ;;
  at' <~ varchar 50 agent_type ;;
  it <~ varchar 50 interaction_type ;;
  st <~ varchar 20 status ;;
  if references_commit (commits w) commit_id then
    let new_id := (agent_interactions_seq w + 1)%Z in
    let row := {| ai_id := new_id; commit_id := Some commit_id;
                  agent_type := at'; interaction_type := it;
                  input_data := i; output_data := o;
                  ai_timestamp := current_time w; status := Some st |} in
    Ok (new_id, set_interactions w (agent_interactions w ++ [row]) new_id)
  else Raise (IntegrityError "agent_interactions_commit_id_fkey").

Definition save_agent_interaction (commit_id : Z) (agent_type interaction_type : string)
    (input_data output_data : pyval) (status : string) : M world Z :=
  transaction "Failed to save agent interaction"
    (insert_interaction commit_id agent_type interaction_type
       input_data output_data status).

(* --------------------------------------------------------------------- *)
(** *** [save_github_event], [mark_event_processed] *)

Definition set_events (w : world) (rows : list event) (seq : Z) (t : nat) : world :=
  {| commits := commits w; commits_seq := commits_seq w;
     agent_interactions := agent_interactions w;
     agent_interactions_seq := agent_interactions_seq w;
     github_events := rows; github_events_seq := seq;
     clock := clock w; ticks := t |}.

Definition insert_event (event_type : string) (repository commit_hash event_data : pyval)
    (w : world) : res (Z * world) :=
  d <~ json_dumps event_data ;;
  r0 <~ text_param repository ;;
  h0 <~ text_param commit_hash ;;
  et <~ varchar 50 event_type ;;
  r1 <~ not_null "repository" r0 ;;
  r <~ varchar 255 r1 ;;
  h <~ varchar_opt 40 h0 ;;
  let new_id := (github_events_seq w + 1)%Z in
  let row := {| ev_id := new_id; event_type := et; repository := r;
                ev_commit_hash := h; event_data := d;
                ev_timestamp := current_time w; processed := false |} in
  Ok (new_id, set_events w (github_events w ++ [row]) new_id (S (ticks w))).

Definition save_github_event (event_type : string)
    (repository commit_hash event_data : pyval) : M world Z :=
  transaction "Failed to save GitHub event"
    (insert_event event_type repository commit_hash event_data).

Definition set_processed (e : event) : event :=
  {| ev_id := ev_id e; event_type := event_type e; repository := repository e;
     ev_commit_hash := ev_commit_hash e; event_data := event_data e;
     ev_timestamp := ev_timestamp e; processed := true |}.

(** [UPDATE github_events SET processed = TRUE WHERE id = %s]. *)
Definition mark_event_processed (event_id : Z) : M world unit :=
  transaction "Failed to mark event as processed"
    (fun w => Ok (tt, set_events w
                        (map (fun e => if (ev_id e =? event_id)%Z
                                       then set_processed e else e)
                             (github_events w))
                        (github_events_seq w) (ticks w))).




(** [SELECT * FROM github_events WHERE processed = FALSE ORDER BY timestamp ASC]. *)
Definition get_unprocessed_github_events : M world (list event) :=
  transaction "Failed to get unprocessed events"
    (fun w => Ok (order_by_asc ev_timestamp
                    (filter (fun e => negb (processed e)) (github_events w)), w)).

End Services.

(* ===================================================================== *)
(** ** The webhook handler of [services/github_webhook_handler.py] *)
(* ===================================================================== *)

(** Library functions the handler calls, taken as parameters:
    [hmac.new(key, msg, hashlib.sha256).hexdigest()], [json.loads] of the
    decoded body, [datetime.fromisoformat] and [datetime.isoformat]. *)
Record externals : Type := {
  hmac_sha256_hexdigest : string -> string -> string;
  json_loads : string -> res pyval;
  fromisoformat : string -> res Z;
  isoformat : Z -> string
}.

Module WebhookHandler.
Import Services.

Section Handler.

Variable X : externals.

(** The handler object: its secret ([None] when not configured). *)
Variable webhook_secret : option string.

Definition expected_signature (secret payload : string) : string :=
  "sha256=" ++ hmac_sha256_hexdigest X secret payload.

(** No secret ([None] or the empty string): verification is skipped. *)
Definition verify_signature (payload signature : string) : res bool :=
  match webhook_secret with
  | None => Ok true
  | Some secret =>
      if String.eqb secret "" then Ok true
      else compare_digest signature (expected_signature secret payload)
  end.

(** [[file['filename'] for file in files]]. *)
Fixpoint filenames (files : list pyval) : res (list pyval) :=
  match files with
  | [] => Ok []
  | file :: rest =>
      name <~ py_getitem file "filename" ;;
      names <~ filenames rest ;;
      Ok (name :: names)
  end.

(** The [changed_files] entry of [commit_info]. *)
Definition changed_files_of (commit_data : pyval) : res pyval :=
  modified <~ py_get commit_data "modified" (PList []) ;;
  added <~ py_get commit_data "added" (PList []) ;;
  ma <~ py_add modified added ;;
  removed <~ py_get commit_data "removed" (PList []) ;;
  all <~ py_add ma removed ;;
  files <~ py_iter all ;;
  names <~ filenames files ;;
  Ok (PList names).

(** The [commit_info] dictionary built for one commit entry; [now] is the
    reading of [datetime.now()] taken for its metadata. *)
Definition commit_info_of (event_data repository commit_hash commit_data : pyval)
    (now : Z) : res pyval :=
  a0 <~ py_getitem commit_data "author" ;;
  author <~ py_getitem a0 "name" ;;
  message <~ py_getitem commit_data "message" ;;
  t0 <~ py_getitem commit_data "timestamp" ;;
  t1 <~ py_replace t0 "Z" "+00:00" ;;
  t <~ fromisoformat X t1 ;;
  ref <~ py_getitem event_data "ref" ;;
  branch <~ py_replace ref "refs/heads/" "" ;;
  files <~ changed_files_of commit_data ;;
  hc <~ py_get event_data "head_commit" (PDict []) ;;
  event_id <~ py_get hc "id" PNone ;;
  p <~ py_get event_data "pusher" (PDict []) ;;
  pusher <~ py_get p "name" PNone ;;
  Ok (PDict [("commit_hash", commit_hash);
             ("author", author);
             ("message", message);
             ("timestamp_commit", PDatetime t);
             ("branch", PStr branch);
             ("repository_path", repository);
             ("changed_files", files);
             ("metadata", PDict [("github_event_id", event_id);
                                 ("pusher", pusher);
                                 ("event_timestamp", PStr (isoformat X now))])]).

(** [datetime.now()] is the last thing the dictionary display evaluates, so
    the clock is read only when everything before it succeeded. *)
Definition build_commit_info (event_data repository commit_hash commit_data : pyval)
    : M world pyval :=
  fun w => match commit_info_of event_data repository commit_hash commit_data
                   (current_time w) with
           | Ok info => (Ok info, tick w)
           | Raise e => (Raise e, w)
           end.

(** One iteration of the loop over the commit entries: [None] when the
    entry is skipped by [continue], the hash when it was saved. *)
Definition push_commit (event_data repository commit_data : pyval)
    : M world (option pyval) :=
  commit_hash <- lift (py_getitem commit_data "id") ;;
  existing_commit <- get_commit_by_hash commit_hash ;;
  match existing_commit with
  | Some _ => ret None
  | None =>
      commit_info <- build_commit_info event_data repository commit_hash commit_data ;;
      _ <- save_commit commit_info ;;
      ret (Some commit_hash)
  end.

Fixpoint push_commits (event_data repository : pyval) (commits : list pyval)
    (processed_commits : list pyval) : M world (list pyval) :=
  match commits with
  | [] => ret processed_commits
  | commit_data :: rest =>
      r <- push_commit event_data repository commit_data ;;
      push_commits event_data repository rest
        (match r with
         | Some h => processed_commits ++ [h]
         | None => processed_commits
         end)
  end.

Definition handle_push_event (event_data : pyval) : M world (list pyval) :=
  wrap "Failed to handle push event"
    (r0 <- lift (py_getitem event_data "repository") ;;
     repository <- lift (py_getitem r0 "full_name") ;;
     commits <- lift (py_get event_data "commits" (PList [])) ;;
     entries <- lift (py_iter commits) ;;
     push_commits event_data repository entries []).

Definition pr_info_of (event_data : pyval) : res (pyval * pyval * pyval) :=
  r0 <~ py_getitem event_data "repository" ;;
  repository <~ py_getitem r0 "full_name" ;;
  pr_data <~ py_getitem event_data "pull_request" ;;
  number <~ py_getitem pr_data "number" ;;
  title <~ py_getitem pr_data "title" ;;
  user <~ py_getitem pr_data "user" ;;
  login <~ py_getitem user "login" ;;
  state <~ py_getitem pr_data "state" ;;
  action <~ py_getitem event_data "action" ;;
  head <~ py_getitem pr_data "head" ;;
  head_sha <~ py_getitem head "sha" ;;
  base <~ py_getitem pr_data "base" ;;
  base_sha <~ py_getitem base "sha" ;;
  created_at <~ py_getitem pr_data "created_at" ;;
  updated_at <~ py_getitem pr_data "updated_at" ;;
  Ok (repository, head_sha,
      PDict [("repository", repository); ("pr_number", number);
             ("title", title); ("author", login); ("state", state);
             ("action", action); ("head_commit", head_sha);
             ("base_commit", base_sha); ("created_at", created_at);
             ("updated_at", updated_at)]).

Definition handle_pull_request_event (event_data : pyval) : M world pyval :=
  wrap "Failed to handle pull request event"
    (i <- lift (pr_info_of event_data) ;;
     let '(repository, head_sha, pr_info) := i in
     _ <- save_github_event "pull_request" repository head_sha pr_info ;;
     ret pr_info).

(** [signature or '']. *)
Definition signature_or_empty (signature : option string) : string :=
  match signature with
  | Some s => s
  | None => ""
  end.

(** The [repository] and [commit_hash] recorded with the event. *)
Definition receipt_fields (event_type : string) (event_data : pyval)
    : res (pyval * pyval) :=
  r0 <~ py_get event_data "repository" (PDict []) ;;
  repository <~ py_get r0 "full_name" (PStr "unknown") ;;
  commit_hash <~
    (if String.eqb event_type "push" then
       hc <~ py_get event_data "head_commit" (PDict []) ;;
       py_get hc "id" PNone
     else if String.eqb event_type "pull_request" then
       pr <~ py_get event_data "pull_request" (PDict []) ;;
       head <~ py_get pr "head" (PDict []) ;;
       py_get head "sha" PNone
     else Ok PNone) ;;
  Ok (repository, commit_hash).

(** "Process based on event type": the [result] dictionary. *)
Definition interpret (event_type : string) (event_data : pyval) : M world pyval :=
  if String.eqb event_type "push" then
    hashes <- handle_push_event event_data ;;
    ret (PDict [("processed_commits", PList hashes)])
  else if String.eqb event_type "pull_request" then
    pr_info <- handle_pull_request_event event_data ;;
    ret (PDict [("pr_info", pr_info)])
  else
    ret (PDict [("message",
                 PStr ("Event type '" ++ event_type ++ "' not specifically handled"))]).

Definition handle_webhook (event_type payload : string) (signature : option string)
    : M world pyval :=
  wrap "Failed to handle webhook"
    (ok <- lift (verify_signature payload (signature_or_empty signature)) ;;
     if negb ok then raise (ValueError "Invalid webhook signature")
     else
       event_data <- lift (json_loads X payload) ;;
       f <- lift (receipt_fields event_type event_data) ;;
       let (repository, commit_hash) := f in
       event_id <- save_github_event event_type repository commit_hash event_data ;;
       result <- interpret event_type event_data ;;
       _ <- mark_event_processed event_id ;;
       ret (PDict [("event_id", PInt event_id);
                   ("event_type", PStr event_type);
                   ("repository", repository);
                   ("processed", PBool true);
                   ("result", result)])).

End Handler.
End WebhookHandler.

(* ===================================================================== *)
(** ** The agent orchestrator of [legacy/agent_orchestrator.py] *)
(* ===================================================================== *)

(** [str(e)]. *)
Fixpoint str_exn (e : exn) : string :=
  match e with
  | KeyError k => "'" ++ k ++ "'"
  | TypeError m | AttributeError m | ValueError m | IntegrityError m
  | ProgrammingError m | DataError m | BackendError m => m
  | JSONDecodeError => "Expecting value"
  | GitRepositoryError ctx c | DataStorageError ctx c => ctx ++ ": " ++ str_exn c
  end.

(** The two analyses talk to the language-model service over HTTP and read
    the agent configuration; they write nothing.  They are parameters: a
    function of the database and of the commit that returns the analysis
    dictionary or raises. *)
Record backends : Type := {
  analyze_commit_with_code_llama : Services.world -> pyval -> pyval -> res pyval;
  analyze_commit_with_ollama : Services.world -> pyval -> res pyval
}.

Module AgentOrchestrator.
Import Services.

Section Orchestrator.

Variable X : externals.
Variable B : backends.

Definition input_of (commit_data : pyval) : pyval :=
  PDict [("commit_data", commit_data)].

Definition error_output (e : exn) : pyval := PDict [("error", PStr (str_exn e))].

Definition result_entry (interaction_id : Z) (agent : string) (analysis : pyval) : pyval :=
  PDict [("interaction_id", PInt interaction_id);
         ("agent", PStr agent);
         ("analysis", analysis)].

(** The first [try] block of [process_commit_with_agents] and its handler. *)
Definition run_code_llama (commit_id : Z) (commit_data : pyval) : M world (list pyval) :=
  try_except
    (changed <- lift (py_get commit_data "changed_files" (PList [])) ;;
     code_analysis <- (fun w => (analyze_commit_with_code_llama B w commit_data changed, w)) ;;
     interaction_id <- save_agent_interaction commit_id "code_llama" "code_analysis"
                         (input_of commit_data) code_analysis "completed" ;;
     ret [result_entry interaction_id "code_llama" code_analysis])
    (fun e =>
       _ <- save_agent_interaction commit_id "code_llama" "code_analysis"
              (input_of commit_data) (error_output e) "failed" ;;
       ret []).

(** The second [try] block and its handler. *)
Definition run_ollama (commit_id : Z) (commit_data : pyval) : M world (list pyval) :=
  try_except
    (commit_analysis <- (fun w => (analyze_commit_with_ollama B w commit_data, w)) ;;
     interaction_id <- save_agent_interaction commit_id "ollama" "commit_analysis"
                         (input_of commit_data) commit_analysis "completed" ;;
     ret [result_entry interaction_id "ollama" commit_analysis])
    (fun e =>
       _ <- save_agent_interaction commit_id "ollama" "commit_analysis"
              (input_of commit_data) (error_output e) "failed" ;;
       ret []).

Definition process_commit_with_agents (commit_id : Z) (commit_data : pyval)
    : M world (list pyval) :=
  wrap "Failed to process commit with agents"
    (r1 <- run_code_llama commit_id commit_data ;;
     r2 <- run_ollama commit_id commit_data ;;
     ret (r1 ++ r2)).

(** [SELECT c.* FROM commits c LEFT JOIN agent_interactions ai
     ON c.id = ai.commit_id WHERE ai.id IS NULL
     ORDER BY c.timestamp_commit DESC]: the join pairs a commit with each of
    its interactions, and with a row of nulls when it has none; the
    condition keeps the latter only. *)
Definition has_interaction (ais : list interaction) (c : commit) : bool :=
  existsb (fun ai => match commit_id ai with
                     | Some i => (i =? id c)%Z
                     | None => false
                     end) ais.

Definition unanalyzed_commits (w : world) : list commit :=
  order_by_desc timestamp_commit
    (filter (fun c => negb (has_interaction (agent_interactions w) c)) (commits w)).

Definition opt_str (v : option string) : pyval :=
  match v with
  | Some s => PStr s
  | None => PNone
  end.

(** [json.loads(v)]: the argument must be text. *)
Definition py_json_loads (v : pyval) : res pyval :=
  match v with
  | PStr s => json_loads X s
  | _ => Raise (TypeError "the JSON object must be str, bytes or bytearray")
  end.

(** [json.loads(v) if v else default]. *)
Definition loads_if (v default : pyval) : res pyval :=
  if truthy v then py_json_loads v else Ok default.

(** The [commit_data] dictionary built from a fetched row: the driver hands
    back a [datetime] for the timestamp and the decoded value of a [JSONB]
    column. *)
Definition commit_data_of_row (c : commit) : res pyval :=
  files <~ loads_if (changed_files c) (PList []) ;;
  meta <~ loads_if (metadata c) (PDict []) ;;
  Ok (PDict [("id", PInt (id c));
             ("commit_hash", PStr (commit_hash c));
             ("author", PStr (author c));
             ("message", PStr (message c));
             ("timestamp_commit", PDatetime (timestamp_commit c));
             ("branch", opt_str (branch c));
             ("repository_path", opt_str (repository_path c));
             ("changed_files", files);
             ("metadata", meta)]).

(** The loop over the fetched rows: a row whose processing raises is
    reported and skipped. *)
Fixpoint analyze_rows (rows : list commit) (results : list pyval) : M world (list pyval) :=
  match rows with
  | [] => ret results
  | commit_row :: rest =>
      r <- try_except
             (commit_data <- lift (commit_data_of_row commit_row) ;;
              process_commit_with_agents (id commit_row) commit_data)
             (fun _ => ret []) ;;
      analyze_rows rest (results ++ r)
  end.

Definition process_unanalyzed_commits : M world (list pyval) :=
  wrap "Failed to process unanalyzed commits"
    (fun w => analyze_rows (unanalyzed_commits w) [] w).

End Orchestrator.
End AgentOrchestrator.

(* ===================================================================== *)
(** ** The repository-aware storage of [legacy/database_service.py] and
       the repository manager of [legacy/repository_manager.py] *)
(* ===================================================================== *)

Fixpoint dict_set (k : string) (v : pyval) (d : list (string * pyval))
    : list (string * pyval) :=
  match d with
  | [] => [(k, v)]
  | (k', v') :: d' =>
      if String.eqb k k' then (k, v) :: d' else (k', v') :: dict_set k v d'
  end.

(** [d[k] = v]. *)
Definition py_setitem (d : pyval) (k : string) (v : pyval) : res pyval :=
  match d with
  | PDict l => Ok (PDict (dict_set k v l))
  | _ => Raise (TypeError "object does not support item assignment")
  end.

(** A parameter bound to an [INTEGER] column. *)
Definition int_param (v : pyval) : res (option Z) :=
  match v with
  | PNone => Ok None
  | PInt n => Ok (Some n)
  | _ => Raise (ProgrammingError "parameter is not an integer")
  end.

Module Legacy.

(** [repositories]: [full_name VARCHAR(500) UNIQUE NOT NULL]. *)
Record repository : Type := {
  repo_id : Z;
  name : string;
  owner : string;
  full_name : string;
  description : option string;
  language : option string;
  is_private : bool;
  created_at : Z;
  updated_at : Z
}.

(** [commits]: [repository_id INTEGER REFERENCES repositories(id)] and
    [UNIQUE(commit_hash, repository_id)]. *)
Record commit : Type := {
  id : Z;
  commit_hash : string;
  repository_id : option Z;
  author : string;
  message : string;
  timestamp_commit : Z;
  timestamp_logged : Z;
  branch : option string;
  repository_path : option string;
  repository_name : option string;
  changed_files : pyval;
  metadata : pyval
}.

Record world : Type := {
  repositories : list repository;
  repositories_seq : Z;
  commits : list commit;
  commits_seq : Z;
  clock : nat -> Z;
  ticks : nat
}.

Definition current_time (w : world) : Z := clock w (ticks w).

Definition transaction {A} (ctx : string) (stmt : world -> res (A * world)) : M world A :=
  fun w => match stmt w with
           | Ok (a, w') => (Ok a, w')
           | Raise e => (Raise (DataStorageError ctx e), w)
           end.

(* --------------------------------------------------------------------- *)
(** *** [save_commit] *)

Record commit_params : Type := {
  p_commit_hash : pyval;
  p_repository_id : pyval;
  p_author : pyval;
  p_message : pyval;
  p_timestamp_commit : pyval;
  p_branch : pyval;
  p_repository_path : pyval;
  p_repository_name : pyval;
  p_changed_files : pyval;
  p_metadata : pyval
}.

Definition commit_params_of (commit_data : pyval) : res commit_params :=
  h <~ py_getitem commit_data "commit_hash" ;;
  ri <~ py_get commit_data "repository_id" PNone ;;
  a <~ py_getitem commit_data "author" ;;
  m <~ py_getitem commit_data "message" ;;
  t <~ py_getitem commit_data "timestamp_commit" ;;
  b <~ py_get commit_data "branch" PNone ;;
  rp <~ py_get commit_data "repository_path" PNone ;;
  rn <~ py_get commit_data "repository_name" PNone ;;
  cf0 <~ py_get commit_data "changed_files" (PList []) ;;
  cf <~ json_dumps cf0 ;;
  md0 <~ py_get commit_data "metadata" (PDict []) ;;
  md <~ json_dumps md0 ;;
  Ok {| p_commit_hash := h; p_repository_id := ri; p_author := a;
        p_message := m; p_timestamp_commit := t; p_branch := b;
        p_repository_path := rp; p_repository_name := rn;
        p_changed_files := cf; p_metadata := md |}.

Definition proposed_commit (p : commit_params) (new_id now : Z) : res commit :=
  h0 <~ text_param (p_commit_hash p) ;;
  ri <~ int_param (p_repository_id p) ;;
  a0 <~ text_param (p_author p) ;;
  m0 <~ text_param (p_message p) ;;
  t0 <~ timestamp_param (p_timestamp_commit p) ;;
  b0 <~ text_param (p_branch p) ;;
  rp <~ text_param (p_repository_path p) ;;
  rn <~ text_param (p_repository_name p) ;;
  h1 <~ not_null "commit_hash" h0 ;;
  h <~ varchar 40 h1 ;;
  a1 <~ not_null "author" a0 ;;
  a <~ varchar 255 a1 ;;
  m <~ not_null "message" m0 ;;
  t <~ not_null "timestamp_commit" t0 ;;
  b <~ varchar_opt 255 b0 ;;
  Ok {| id := new_id; commit_hash := h; repository_id := ri; author := a;
        message := m; timestamp_commit := t; timestamp_logged := now;
        branch := b; repository_path := rp; repository_name := rn;
        changed_files := p_changed_files p; metadata := p_metadata p |}.

Definition overwrite (old new : commit) : commit :=
  {| id := id old; commit_hash := commit_hash old;
     repository_id := repository_id old; author := author new;
     message := message new; timestamp_commit := timestamp_commit new;
     timestamp_logged := timestamp_logged old; branch := branch new;
     repository_path := repository_path new;
     repository_name := repository_name new;
     changed_files := changed_files new; metadata := metadata new |}.

(** Two rows conflict on [UNIQUE(commit_hash, repository_id)] when the hash
    is the same and the repository ids are equal and not null: a null
    repository id never conflicts. *)
Definition same_key (r new : commit) : bool :=
  String.eqb (commit_hash r) (commit_hash new) &&
  match repository_id r, repository_id new with
  | Some i, Some j => (i =? j)%Z
  | _, _ => false
  end.

Fixpoint upsert (new : commit) (rows : list commit) : list commit * Z :=
  match rows with
  | [] => ([new], id new)
  | r :: rows' =>
      if same_key r new
      then (overwrite r new :: rows', id r)
      else let (rows'', i) := upsert new rows' in (r :: rows'', i)
  end.

Definition references_repository (rows : list repository) (i : option Z) : bool :=
  match i with
  | None => true
  | Some n => existsb (fun r => (repo_id r =? n)%Z) rows
  end.

Definition set_commits (w : world) (rows : list commit) (seq : Z) (t : nat) : world :=
  {| repositories := repositories w; repositories_seq := repositories_seq w;
     commits := rows; commits_seq := seq; clock := clock w; ticks := t |}.

Definition insert_commit (p : commit_params) (w : world) : res (Z * world) :=
  let new_id := (commits_seq w + 1)%Z in
  new <~ proposed_commit p new_id (current_time w) ;;
  if references_repository (repositories w) (repository_id new) then
    let (rows, i) := upsert new (commits w) in
    Ok (i, set_commits w rows new_id (S (ticks w)))
  else Raise (IntegrityError "commits_repository_id_fkey").

Definition save_commit (commit_data : pyval) : M world Z :=
  transaction "Failed to save commit"
    (fun w => p <~ commit_params_of commit_data ;; insert_commit p w).

(** [SELECT * FROM commits WHERE commit_hash = %s] and [fetchone()]: the
    first row with that hash. *)
Definition select_by_hash (h : option string) (rows : list commit) : option commit :=
  match h with
  | None => None
  | Some s => find (fun r => String.eqb (commit_hash r) s) rows
  end.

Definition get_commit_by_hash (commit_hash : pyval) : M world (option commit) :=
  transaction "Failed to get commit"
    (fun w => h <~ text_param commit_hash ;;
              Ok (select_by_hash h (commits w), w)).

(* --------------------------------------------------------------------- *)
(** *** The listings *)

(** [commits c LEFT JOIN repositories r ON c.repository_id = r.id]. *)
Definition repository_of (w : world) (c : commit) : option repository :=
  match repository_id c with
  | None => None
  | Some i => find (fun r => (repo_id r =? i)%Z) (repositories w)
  end.

Definition joined (w : world) : list (commit * option repository) :=
  map (fun c => (c, repository_of w c)) (commits w).

Definition r_name (j : commit * option repository) : option string :=
  option_map name (snd j).

Definition r_owner (j : commit * option repository) : option string :=
  option_map owner (snd j).

Definition c_name (j : commit * option repository) : option string :=
  repository_name (fst j).

(** The name is the text [Practice_Repo]. *)
Definition is_practice (n : option string) : bool :=
  match n with
  | Some s => String.eqb s "Practice_Repo"
  | None => false
  end.

Definition listing (where_ : commit * option repository -> option bool)
    (limit : Z) (w : world) : res (list (commit * option repository) * world) :=
  if (limit <? 0)%Z then Raise (DataError "LIMIT must not be negative")
  else Ok (firstn (Z.to_nat limit)
             (order_by_desc (fun j => timestamp_commit (fst j))
                (filter (fun j => sql_holds (where_ j)) (joined w))), w).

(** The condition of [get_recent_commits] when a repository name is given. *)
Definition recent_where_named (n : string) (j : commit * option repository) : option bool :=
  sql_or (sql_and (sql_eq (r_name j) n) (sql_neq (r_name j) "Practice_Repo"))
         (sql_and (sql_eq (c_name j) n) (sql_neq (c_name j) "Practice_Repo")).

(** The condition of [get_recent_commits] when none is given. *)
Definition recent_where_all (j : commit * option repository) : option bool :=
  sql_or (sql_or (sql_is_null (r_name j)) (sql_neq (r_name j) "Practice_Repo"))
         (sql_or (sql_is_null (c_name j)) (sql_neq (c_name j) "Practice_Repo")).

Definition get_recent_commits (limit : Z) (repository_name : option string)
    : M world (list (commit * option repository)) :=
  transaction "Failed to get recent commits"
    (match repository_name with
     | Some n => if String.eqb n "" then listing recent_where_all limit
                 else listing (recent_where_named n) limit
     | None => listing recent_where_all limit
     end).

Definition repository_where (o n : string) (j : commit * option repository) : option bool :=
  sql_or (sql_and (sql_eq (r_owner j) o) (sql_eq (r_name j) n))
         (sql_and (sql_eq (c_name j) n) (sql_neq (c_name j) "Practice_Repo")).

Definition get_repository_commits (repo_owner repo_name : string) (limit : Z)
    : M world (list (commit * option repository)) :=
  transaction "Failed to get repository commits"
    (listing (repository_where repo_owner repo_name) limit).

(* --------------------------------------------------------------------- *)
(** *** Registering a repository *)

Definition proposed_repository (owner name : string)
    (description language : option string) (is_private : bool)
    (new_id now : Z) : res repository :=
  n <~ varchar 255 name ;;
  o <~ varchar 255 owner ;;
  f <~ varchar 500 (owner ++ "/" ++ name) ;;
  l <~ varchar_opt 100 language ;;
  Ok {| repo_id := new_id; name := n; owner := o; full_name := f;
        description := description; language := l; is_private := is_private;
        created_at := now; updated_at := now |}.

(** A language that fits [VARCHAR(100)], or none. *)
Definition fits_language (l : option string) : Prop :=
  match l with
  | Some s => (String.length s <= 100)%nat
  | None => True
  end.

(** [ON CONFLICT (full_name) DO UPDATE SET updated_at = CURRENT_TIMESTAMP]. *)
Definition touch (old new : repository) : repository :=
  {| repo_id := repo_id old; name := name old; owner := owner old;
     full_name := full_name old; description := description old;
     language := language old; is_private := is_private old;
     created_at := created_at old; updated_at := updated_at new |}.

(** [ON CONFLICT (full_name) DO UPDATE SET description = EXCLUDED.description,
     language = ..., is_private = ..., updated_at = CURRENT_TIMESTAMP]. *)
Definition refresh (old new : repository) : repository :=
  {| repo_id := repo_id old; name := name old; owner := owner old;
     full_name := full_name old; description := description new;
     language := language new; is_private := is_private new;
     created_at := created_at old; updated_at := updated_at new |}.

Fixpoint upsert_repository (on_conflict : repository -> repository -> repository)
    (new : repository) (rows : list repository) : list repository * Z :=
  match rows with
  | [] => ([new], repo_id new)
  | r :: rows' =>
      if String.eqb (full_name r) (full_name new)
      then (on_conflict r new :: rows', repo_id r)
      else let (rows'', i) := upsert_repository on_conflict new rows' in
           (r :: rows'', i)
  end.

(** [UPDATE commits SET repository_id = %s
     WHERE repository_name = %s AND repository_id IS NULL]. *)
Definition backfill_row (i : Z) (n : string) (c : commit) : commit :=
  if sql_holds (sql_and (sql_eq (repository_name c) n)
                        (sql_is_null (repository_id c)))
  then {| id := id c; commit_hash := commit_hash c; repository_id := Some i;
          author := author c; message := message c;
          timestamp_commit := timestamp_commit c;
          timestamp_logged := timestamp_logged c; branch := branch c;
          repository_path := repository_path c;
          repository_name := repository_name c;
          changed_files := changed_files c; metadata := metadata c |}
  else c.

(** [UNIQUE(commit_hash, repository_id)] over a whole table. *)
Fixpoint unique_keys (rows : list commit) : bool :=
  match rows with
  | [] => true
  | r :: rows' => negb (existsb (same_key r) rows') && unique_keys rows'
  end.

Definition backfill (i : Z) (n : string) (rows : list commit) : res (list commit) :=
  let rows' := map (backfill_row i n) rows in
  if unique_keys rows' then Ok rows'
  else Raise (IntegrityError "commits_commit_hash_repository_id_key").

Definition ensure_statement (owner repo_name : string) (w : world) : res (Z * world) :=
  let new_id := (repositories_seq w + 1)%Z in
  new <~ proposed_repository owner repo_name None None false new_id (current_time w) ;;
  let (repos, i) := upsert_repository touch new (repositories w) in
  rows <~ backfill i repo_name (commits w) ;;
  Ok (i, {| repositories := repos; repositories_seq := new_id;
            commits := rows; commits_seq := commits_seq w;
            clock := clock w; ticks := S (ticks w) |}).

Definition ensure_repository_isolation (owner repo_name : string) : M world Z :=
  transaction "Failed to ensure repository isolation" (ensure_statement owner repo_name).

End Legacy.

Module RepositoryManager.
Import Legacy.

Definition register_statement (owner name : string)
    (description language : option string) (is_private : bool) (w : world)
    : res (Z * world) :=
  let new_id := (repositories_seq w + 1)%Z in
  new <~ proposed_repository owner name description language is_private
           new_id (current_time w) ;;
  let (repos, i) := upsert_repository refresh new (repositories w) in
  Ok (i, {| repositories := repos; repositories_seq := new_id;
            commits := commits w; commits_seq := commits_seq w;
            clock := clock w; ticks := S (ticks w) |}).

Definition register_repository (owner name : string)
    (description language : option string) (is_private : bool) : M world Z :=
  transaction "Failed to register repository"
    (register_statement owner name description language is_private).

Definition ensure_repository_isolation (owner name : string) : M world Z :=
  wrap "Failed to ensure repository isolation"
    (Legacy.ensure_repository_isolation owner name).

Definition get_commits_by_repository (owner name : string) (limit : Z)
    : M world (list (commit * option repository)) :=
  wrap "Failed to get commits by repository"
    (get_repository_commits owner name limit).

Definition count_commits (w : world) (r : repository) : Z :=
  Z.of_nat (List.length
    (filter (fun c => match repository_id c with
                      | Some i => (i =? repo_id r)%Z
                      | None => false
                      end) (commits w))).

Definition not_practice (n : option string) : option bool :=
  sql_or (sql_is_null n) (sql_neq n "Practice_Repo").

Record statistics : Type := {
  st_repositories : list (repository * Z);
  total_repositories : Z;
  total_commits : Z
}.

(** The three queries of [get_repository_statistics]. *)
Definition statistics_of (w : world) : statistics :=
  let listed := filter (fun r => negb (String.eqb (name r) "Practice_Repo"))
                       (repositories w) in
  {| st_repositories :=
       order_by_desc snd (map (fun r => (r, count_commits w r)) listed);
     total_repositories := Z.of_nat (List.length listed);
     total_commits :=
       Z.of_nat (List.length
         (filter (fun j => sql_holds (sql_and (not_practice (r_name j))
                                              (not_practice (c_name j))))
                 (joined w))) |}.

Definition get_repository_statistics : M world statistics :=
  transaction "Failed to get repository statistics"
    (fun w => Ok (statistics_of w, w)).

Definition save_commit_with_repository (commit_data : pyval) (owner repo_name : string)
    : M world Z :=
  wrap "Failed to save commit with repository"
    (repo_id <- ensure_repository_isolation owner repo_name ;;
     d1 <- lift (py_setitem commit_data "repository_id" (PInt repo_id)) ;;
     d2 <- lift (py_setitem d1 "repository_name" (PStr repo_name)) ;;
     save_commit d2).

End RepositoryManager.

(* ===================================================================== *)
(** ** Concrete deliveries and stores used in the examples *)
(* ===================================================================== *)

Module Examples.

(** Stand-ins for the library functions: a digest that is constant, a
    parser that knows the bodies used below, and a timestamp parser that
    knows one instant. *)
Definition push_body : string := "push acme/widgets deadbeef".
Definition replay_body : string := "push acme/widgets deadbeef, no files".
Definition two_commits_body : string := "push acme/widgets broken, cafe".

Definition ada : pyval := PDict [("name", PStr "Ada"); ("email", PStr "ada@example.org")].

(** One commit entry as the platform sends it: the file lists hold paths. *)
Definition entry (sha : string) (modified : list pyval) : pyval :=
  PDict [("id", PStr sha);
         ("message", PStr "fix bug");
         ("author", ada);
         ("timestamp", PStr "2024-01-01T00:00:00Z");
         ("added", PList []);
         ("modified", PList modified);
         ("removed", PList [])].

(** An entry without [message] and [author]. *)
Definition broken_entry : pyval :=
  PDict [("id", PStr "broken"); ("timestamp", PStr "2024-01-01T00:00:00Z")].

Definition push_event (entries : list pyval) : pyval :=
  PDict [("ref", PStr "refs/heads/main");
         ("repository", PDict [("full_name", PStr "acme/widgets")]);
         ("pusher", PDict [("name", PStr "ada")]);
         ("head_commit", PDict [("id", PStr "deadbeef")]);
         ("commits", PList entries)].

(** The scenario of the specification: one commit, modified file [a.py]. *)
Definition scenario_event : pyval := push_event [entry "deadbeef" [PStr "a.py"]].

(** The same push without changed files. *)
Definition replay_event : pyval := push_event [entry "deadbeef" []].

(** A push whose first entry is malformed and whose second is fine. *)
Definition two_commits_event : pyval := push_event [broken_entry; entry "cafe" []].

Definition second_only_event : pyval := push_event [entry "cafe" []].

Definition X0 : externals :=
  {| hmac_sha256_hexdigest := fun _ _ => "00ff";
     json_loads := fun body =>
       if String.eqb body push_body then Ok scenario_event
       else if String.eqb body replay_body then Ok replay_event
       else if String.eqb body two_commits_body then Ok two_commits_event
       else Raise JSONDecodeError;
     fromisoformat := fun s =>
       if String.eqb s "2024-01-01T00:00:00+00:00" then Ok 1704067200%Z
       else Raise (ValueError "Invalid isoformat string");
     isoformat := fun t => if (t =? 0)%Z then "T0" else "T+" |}.

(** An empty services database whose clock reads 0, 1, 2, ... *)
Definition empty : Services.world :=
  {| Services.commits := []; Services.commits_seq := 0;
     Services.agent_interactions := []; Services.agent_interactions_seq := 0;
     Services.github_events := []; Services.github_events_seq := 0;
     Services.clock := Z.of_nat; Services.ticks := 0 |}.

Definition stored (i : Z) (h : string) (t : Z) : Services.commit :=
  {| Services.id := i; Services.commit_hash := h; Services.author := "Ada";
     Services.message := "fix bug"; Services.timestamp_commit := t;
     Services.timestamp_logged := t; Services.branch := Some "main";
     Services.repository_path := Some "acme/widgets";
     Services.changed_files := PList []; Services.metadata := PDict [] |}.



(** Two stored commits and no interaction: the older one was stored first. *)
Definition two_pending : Services.world :=
  {| Services.commits := [stored 1 "old" 10; stored 2 "new" 20];
     Services.commits_seq := 2;
     Services.agent_interactions := []; Services.agent_interactions_seq := 0;
     Services.github_events := []; Services.github_events_seq := 0;
     Services.clock := Z.of_nat; Services.ticks := 0 |}.

(** One stored commit, not analysed yet. *)
Definition one_pending : Services.world :=
  {| Services.commits := [stored 1 "deadbeef" 10]; Services.commits_seq := 1;
     Services.agent_interactions := []; Services.agent_interactions_seq := 0;
     Services.github_events := []; Services.github_events_seq := 0;
     Services.clock := Z.of_nat; Services.ticks := 0 |}.

(** The code-quality backend is unreachable, the commit-pattern backend
    answers. *)
Definition B0 : backends :=
  {| analyze_commit_with_code_llama := fun _ _ _ =>
       Raise (DataStorageError "Failed to analyze commit with Code Llama"
                (DataStorageError "Ollama is not running" (BackendError "")));
     analyze_commit_with_ollama := fun _ _ =>
       Ok (PDict [("agent_type", PStr "ollama");
                  ("analysis_type", PStr "commit_patterns");
                  ("analysis", PStr "looks fine")]) |}.

(** The [commit_data] the reconciliation loop builds from the stored row. *)
Definition dispatched : pyval :=
  PDict [("id", PInt 1); ("commit_hash", PStr "deadbeef");
         ("author", PStr "Ada"); ("message", PStr "fix bug");
         ("timestamp_commit", PDatetime 10); ("branch", PStr "main");
         ("repository_path", PStr "acme/widgets");
         ("changed_files", PList []); ("metadata", PDict [])].

(** The same data with the timestamp as text. *)
Definition dispatched_text : pyval :=
  PDict [("id", PInt 1); ("commit_hash", PStr "deadbeef");
         ("author", PStr "Ada"); ("message", PStr "fix bug");
         ("timestamp_commit", PStr "2024-01-01T00:00:00"); ("branch", PStr "main");
         ("repository_path", PStr "acme/widgets");
         ("changed_files", PList []); ("metadata", PDict [])].

(** A repository-aware store with two repositories of one owner. *)
Definition repo (i : Z) (o n : string) : Legacy.repository :=
  {| Legacy.repo_id := i; Legacy.name := n; Legacy.owner := o;
     Legacy.full_name := o ++ "/" ++ n; Legacy.description := None;
     Legacy.language := None; Legacy.is_private := false;
     Legacy.created_at := 0; Legacy.updated_at := 0 |}.

Definition two_repositories : Legacy.world :=
  {| Legacy.repositories := [repo 1 "x" "r1"; repo 2 "x" "r2"];
     Legacy.repositories_seq := 2;
     Legacy.commits := []; Legacy.commits_seq := 0;
     Legacy.clock := Z.of_nat; Legacy.ticks := 0 |}.

(** The dictionary [save_commit] receives for a commit of a repository. *)
Definition commit_for (h : string) (repository_id : pyval) (author repository : string)
    : pyval :=
  PDict [("commit_hash", PStr h); ("repository_id", repository_id);
         ("author", PStr author); ("message", PStr "fix bug");
         ("timestamp_commit", PDatetime 5); ("branch", PStr "main");
         ("repository_path", PStr repository);
         ("repository_name", PStr repository)].




End Examples.

(* ===================================================================== *)
(** ** More of the storage services, of the handler and of the server *)
(* ===================================================================== *)

(** [old] occurs somewhere in [s]. *)
Fixpoint occurs (old s : string) : bool :=
  String.prefix old s ||
  match s with
  | EmptyString => false
  | String _ s' => occurs old s'
  end.

Module ServicesQueries.
Import Services.

(** [SELECT * FROM commits ORDER BY timestamp_commit DESC LIMIT %s]. *)
Definition get_recent_commits (limit : Z) : M world (list commit) :=
  transaction "Failed to get recent commits"
    (fun w => if (limit <? 0)%Z
              then Raise (DataError "LIMIT must not be negative")
              else Ok (firstn (Z.to_nat limit)
                         (order_by_desc timestamp_commit (commits w)), w)).

Record statistics : Type := {
  total_commits : Z;
  unique_authors : Z;
  total_interactions : Z;
  unprocessed_events : Z
}.

(** The four counts of [get_statistics]. *)
Definition get_statistics : M world statistics :=
  transaction "Failed to get statistics"
    (fun w =>
       Ok ({| total_commits := Z.of_nat (List.length (commits w));
              unique_authors :=
                Z.of_nat (List.length (nodup string_dec (map author (commits w))));
              total_interactions := Z.of_nat (List.length (agent_interactions w));
              unprocessed_events :=
                Z.of_nat (List.length
                  (filter (fun e => negb (processed e)) (github_events w))) |}, w)).

End ServicesQueries.

Module Reconciliation.
Import Services WebhookHandler.

(** Every event row of [w] is still in [w'], as it was or marked processed. *)
Definition events_kept (w w' : world) : Prop :=
  forall e, In e (github_events w) ->
            In e (github_events w') \/
            (processed e = false /\ In (set_processed e) (github_events w')).

Section Replay.

Variable X : externals.

Definition replay_result (e : event) (kind : string) (result : pyval) : pyval :=
  PDict [("event_id", PInt (ev_id e)); ("type", PStr kind); ("result", result)].

(** The part of the loop body before [mark_event_processed]: the list of
    results with the entry of this event appended, if its kind has one. *)
Definition replay_handle (e : event) (processed_results : list pyval)
    : M world (list pyval) :=
  if String.eqb (event_type e) "push" then
    result <- handle_push_event X (event_data e) ;;
    ret (processed_results ++ [replay_result e "push" (PList result)])
  else if String.eqb (event_type e) "pull_request" then
    result <- handle_pull_request_event (event_data e) ;;
    ret (processed_results ++ [replay_result e "pull_request" result])
  else ret processed_results.

(** One iteration: an exception anywhere in the body is reported and the
    loop goes on; an entry appended before the exception stays. *)
Definition replay_event (e : event) (processed_results : list pyval)
    : M world (list pyval) :=
  handled <- try_except
               (r <- replay_handle e processed_results ;; ret (Some r))
               (fun _ => ret None) ;;
  match handled with
  | Some r => try_except (_ <- mark_event_processed (ev_id e) ;; ret r)
                         (fun _ => ret r)
  | None => ret processed_results
  end.

Fixpoint replay_events (events : list event) (processed_results : list pyval)
    : M world (list pyval) :=
  match events with
  | [] => ret processed_results
  | e :: rest =>
      r <- replay_event e processed_results ;;
      replay_events rest r
  end.

Definition process_unprocessed_events : M world (list pyval) :=
  wrap "Failed to process unprocessed events"
    (unprocessed_events <- get_unprocessed_github_events ;;
     replay_events unprocessed_events []).

End Replay.
End Reconciliation.

(** The route [/webhook/github] of [webhook_server.py]: the status code and
    the JSON body of the response. *)
Module WebhookServer.
Import Services WebhookHandler.

(** [isinstance(e, ValueError)]: [json.JSONDecodeError] is a subclass, the
    application's own errors are not. *)
Definition is_value_error (e : exn) : bool :=
  match e with
  | ValueError _ | JSONDecodeError => true
  | _ => false
  end.

(** [request.headers.get(name, '')]. *)
Definition header_or_empty (h : option string) : string :=
  match h with
  | Some v => v
  | None => ""
  end.

Definition github_webhook (X : externals) (webhook_secret : option string)
    (payload : string) (signature_header event_header : option string)
    : Services.world -> (Z * pyval) * Services.world :=
  fun w =>
    let signature := header_or_empty signature_header in
    let event_type := header_or_empty event_header in
    match handle_webhook X webhook_secret event_type payload (Some signature) w with
    | (Ok result, w') =>
        ((200%Z, PDict [("status", PStr "success");
                        ("message", PStr ("Processed " ++ event_type ++ " event"));
                        ("result", result)]), w')
    | (Raise e, w') =>
        if is_value_error e
        then ((401%Z, PDict [("status", PStr "error");
                             ("message", PStr "Invalid webhook signature")]), w')
        else ((500%Z, PDict [("status", PStr "error");
                             ("message",
                              PStr ("Error processing webhook: " ++ str_exn e))]), w')
    end.

End WebhookServer.

Module LegacyMaintenance.
Import Legacy.

Definition name_is_null (c : commit) : bool :=
  match repository_name c with
  | None => true
  | Some _ => false
  end.

Definition set_repository_name (n : string) (c : commit) : commit :=
  {| id := id c; commit_hash := commit_hash c; repository_id := repository_id c;
     author := author c; message := message c;
     timestamp_commit := timestamp_commit c;
     timestamp_logged := timestamp_logged c; branch := branch c;
     repository_path := repository_path c; repository_name := Some n;
     changed_files := changed_files c; metadata := metadata c |}.

(** [UPDATE commits SET repository_name = %s WHERE repository_name IS NULL],
    returning [cursor.rowcount]. *)
Definition fix_null_repository_names (default_repo_name : string) : M world Z :=
  transaction "Failed to fix null repository names"
    (fun w =>
       Ok (Z.of_nat (List.length (filter name_is_null (commits w))),
           set_commits w
             (map (fun c => if name_is_null c
                            then set_repository_name default_repo_name c else c)
                  (commits w))
             (commits_seq w) (ticks w))).

(** The repository names of the commits that have one. *)
Definition names_of (rows : list commit) : list string :=
  flat_map (fun c => match repository_name c with
                     | Some n => [n]
                     | None => []
                     end) rows.

Record repository_statistics : Type := {
  repository_stats : list (string * Z);
  null_repository_count : Z;
  total_repositories : Z
}.

(** The number of commits per repository name ([WHERE repository_name IS
     NOT NULL GROUP BY repository_name ORDER BY commit_count DESC]), the count of
    commits without a name, and the number of groups. *)
Definition repository_statistics_of (w : world) : repository_statistics :=
  let names := names_of (commits w) in
  let repo_stats :=
    order_by_desc snd
      (map (fun n => (n, Z.of_nat (count_occ string_dec names n)))
           (nodup string_dec names)) in
  {| repository_stats := repo_stats;
     null_repository_count :=
       Z.of_nat (List.length (filter name_is_null (commits w)));
     total_repositories := Z.of_nat (List.length repo_stats) |}.

Definition get_repository_statistics : M world repository_statistics :=
  transaction "Failed to get repository statistics"
    (fun w => Ok (repository_statistics_of w, w)).







End LegacyMaintenance.

Module RepositoryLookup.
Import Legacy.

(** [SELECT id FROM repositories WHERE owner = %s AND name = %s]. *)
Definition get_repository_id (o n : string) : M world (option Z) :=
  transaction "Failed to get repository ID"
    (fun w =>
       Ok (option_map repo_id
             (find (fun r => String.eqb (owner r) o && String.eqb (name r) n)
                   (repositories w)), w)).

End RepositoryLookup.

Module MoreExamples.




Definition pr_event : pyval :=
  PDict [("action", PStr "opened");
         ("repository", PDict [("full_name", PStr "acme/widgets")]);
         ("pull_request",
          PDict [("number", PInt 7); ("title", PStr "Fix bug");
                 ("user", PDict [("login", PStr "ada")]);
                 ("state", PStr "open");
                 ("head", PDict [("sha", PStr "deadbeef")]);
                 ("base", PDict [("sha", PStr "cafe")]);
                 ("created_at", PStr "2024-01-01T00:00:00Z");
                 ("updated_at", PStr "2024-01-01T00:00:00Z")])].



(** A push whose first entry is fine and whose second is malformed. *)
Definition good_then_broken : list pyval :=
  [Examples.entry "cafe" []; Examples.broken_entry].




End MoreExamples.

(* ===================================================================== *)
(** ** Properties *)
(* ===================================================================== *)

(** *** Sorting *)

Section Sorting.

Context {A : Type} (le : A -> A -> bool).

Lemma insert_by_perm (x : A) (l : list A) : Permutation (x :: l) (insert_by le x l).
Proof.
  induction l as [|y l IH]; simpl.
  - apply Permutation_refl.
  - destruct (le x y).
    + apply Permutation_refl.
    + eapply perm_trans; [apply perm_swap|]. now apply perm_skip.
Qed.

Lemma sort_by_perm (l : list A) : Permutation l (sort_by le l).
Proof.
  induction l as [|x l IH]; simpl.
  - constructor.
  - eapply perm_trans; [|apply insert_by_perm]. now apply perm_skip.
Qed.

Lemma sort_by_In (x : A) (l : list A) : In x (sort_by le l) <-> In x l.
Proof.
  split; intro H.
  - eapply Permutation_in; [apply Permutation_sym, sort_by_perm|exact H].
  - eapply Permutation_in; [apply sort_by_perm|exact H].
Qed.

Hypothesis le_total : forall x y, le x y = false -> le y x = true.

Lemma insert_by_sorted (x : A) (l : list A) :
  Sorted (fun a b => le a b = true) l ->
  Sorted (fun a b => le a b = true) (insert_by le x l).
Proof.
  induction l as [|y l IH]; simpl; intro Hs.
  - repeat constructor.
  - destruct (le x y) eqn:E.
    + constructor; [exact Hs|constructor; exact E].
    + inversion Hs as [|? ? Hs' Hhd]; subst.
      constructor; [now apply IH|].
      destruct l as [|z l]; simpl.
      * constructor. now apply le_total.
      * destruct (le x z); constructor.
        -- now apply le_total.
        -- now inversion Hhd.
Qed.

Lemma sort_by_sorted (l : list A) : Sorted (fun a b => le a b = true) (sort_by le l).
Proof.
  induction l as [|x l IH]; simpl.
  - constructor.
  - now apply insert_by_sorted.
Qed.

End Sorting.

Lemma order_by_desc_sorted {A} (key : A -> Z) (l : list A) :
  Sorted (fun a b => (key b <= key a)%Z) (order_by_desc key l).
Proof.
  unfold order_by_desc.
  eapply Sorted_ind with
    (P := fun l => Sorted (fun a b => (key b <= key a)%Z) l);
    [constructor| |apply (sort_by_sorted (fun x y => (key y <=? key x)%Z))].
  - intros a l0 _ IH Hhd. constructor; [exact IH|].
    destruct Hhd; constructor. now apply Z.leb_le.
  - intros x y H. apply Z.leb_le. apply Z.leb_gt in H. lia.
Qed.

Lemma order_by_desc_In {A} (key : A -> Z) (x : A) (l : list A) :
  In x (order_by_desc key l) <-> In x l.
Proof. apply sort_by_In. Qed.

(* --------------------------------------------------------------------- *)
(** *** Signature verification *)

Section Authenticity.

Import Services WebhookHandler.
Variable X : externals.

Lemma compare_digest_differs (a b : string) :
  a <> b -> compare_digest a b = Ok false \/ exists m, compare_digest a b = Raise (TypeError m).
Proof.
  intro Hne. unfold compare_digest.
  destruct (is_ascii a && is_ascii b).
  - left. f_equal. now apply String.eqb_neq.
  - right. eexists. reflexivity.
Qed.

(** C1.  When a secret is configured and the signature header is not the
    expected [sha256=<HMAC-SHA256 of the raw body>], [handle_webhook]
    raises and the whole database is as it was: no [github_events] row, no
    [commits] row and no [agent_interactions] row has been written. *)
Theorem wrong_signature_rejected_without_write :
  forall (secret event_type payload : string) (signature : option string) (w : world),
    secret <> "" ->
    signature_or_empty signature <> expected_signature X secret payload ->
    exists e,
      handle_webhook X (Some secret) event_type payload signature w
      = (Raise (DataStorageError "Failed to handle webhook" e), w).
Proof.
  intros secret event_type payload signature w Hs Hne.
  unfold handle_webhook, wrap, bind, lift, verify_signature.
  apply String.eqb_neq in Hs. rewrite Hs.
  destruct (compare_digest_differs _ _ Hne) as [E|[m E]]; rewrite E; simpl.
  - eexists. reflexivity.
  - eexists. reflexivity.
Qed.

End Authenticity.

Lemma wrong_signature_rejected_witness :
  exists e,
    WebhookHandler.handle_webhook Examples.X0 (Some "s3cret") "push"
      Examples.push_body (Some "sha256=bad") Examples.empty
    = (Raise (DataStorageError "Failed to handle webhook" e), Examples.empty).
Proof.
  apply (wrong_signature_rejected_without_write Examples.X0 "s3cret" "push"
           Examples.push_body (Some "sha256=bad") Examples.empty).
  - discriminate.
  - vm_compute. discriminate.
Defined.

(* --------------------------------------------------------------------- *)
(** *** The set of unanalyzed commits *)

Section Unanalyzed.

Import Services AgentOrchestrator.



End Unanalyzed.


(** The order is newest first, not oldest first. *)
Example unanalyzed_commits_newest_first :
  map Services.timestamp_commit
      (AgentOrchestrator.unanalyzed_commits Examples.two_pending) = [20%Z; 10%Z].
Proof. reflexivity. Qed.

(* --------------------------------------------------------------------- *)
(** *** Dispatch to the two backends *)

Section Dispatch.

Import Services AgentOrchestrator.
Variable X : externals.
Variable B : backends.

Lemma save_agent_interaction_unserializable
    (commit_id : Z) (agent_type interaction_type : string)
    (commit_data output : pyval) (st : string) (w : world) :
  json_serializable commit_data = false ->
  save_agent_interaction commit_id agent_type interaction_type
    (input_of commit_data) output st w
  = (Raise (DataStorageError "Failed to save agent interaction"
              (TypeError "Object of type datetime is not JSON serializable")), w).
Proof.
  intro H. unfold save_agent_interaction, transaction, insert_interaction, json_dumps.
  simpl. rewrite H. reflexivity.
Qed.

(** When [commit_data] holds a [datetime], neither the completed nor the
    failed interaction can be written: the exception leaves the handler of
    the first backend, the second backend is never asked, and nothing is
    recorded. *)
Lemma unserializable_commit_data_records_nothing
    (commit_id : Z) (commit_data : pyval) (w : world) :
  json_serializable commit_data = false ->
  process_commit_with_agents B commit_id commit_data w
  = (Raise (DataStorageError "Failed to process commit with agents"
              (DataStorageError "Failed to save agent interaction"
                 (TypeError "Object of type datetime is not JSON serializable"))), w).
Proof.
  intro H.
  unfold process_commit_with_agents, wrap, bind, run_code_llama, try_except, bind, lift.
  destruct (py_get commit_data "changed_files" (PList [])) as [cf|e].
  - destruct (analyze_commit_with_code_llama B w commit_data cf) as [a|e];
      rewrite !save_agent_interaction_unserializable by exact H; reflexivity.
  - rewrite save_agent_interaction_unserializable by exact H. reflexivity.
Qed.

Lemma commit_data_of_row_unserializable (c : commit) (d : pyval) :
  commit_data_of_row X c = Ok d -> json_serializable d = false.
Proof.
  unfold commit_data_of_row, rbind. intro H.
  destruct (loads_if X (changed_files c) (PList [])); [|discriminate].
  destruct (loads_if X (metadata c) (PDict [])); [|discriminate].
  injection H as <-. reflexivity.
Qed.

Lemma analyze_rows_records_nothing (rows : list commit) (results : list pyval) (w : world) :
  analyze_rows X B rows results w = (Ok results, w).
Proof.
  revert results. induction rows as [|c rows IH]; intro results; simpl.
  - reflexivity.
  - unfold bind, try_except, lift.
    destruct (commit_data_of_row X c) as [d|e] eqn:E.
    + rewrite unserializable_commit_data_records_nothing
        by (eapply commit_data_of_row_unserializable; eassumption).
      unfold ret. rewrite app_nil_r. apply IH.
    + unfold ret. rewrite app_nil_r. apply IH.
Qed.

(** The reconciliation pass over the unanalyzed commits therefore records
    no interaction at all, whatever the backends answer. *)
Lemma process_unanalyzed_commits_records_nothing (w : world) :
  process_unanalyzed_commits X B w = (Ok [], w).
Proof.
  unfold process_unanalyzed_commits, wrap.
  now rewrite analyze_rows_records_nothing.
Qed.

(** The isolation itself is there: when the interactions can be written
    (the commit is stored and [commit_data] and the analysis serialise),
    a failing first backend and an answering second one leave one [failed]
    and one [completed] row. *)
Lemma isolation_when_recordable
    (cid : Z) (commit_data changed analysis : pyval) (e : exn) (w : world) :
  references_commit (commits w) cid = true ->
  json_serializable commit_data = true ->
  json_serializable analysis = true ->
  py_get commit_data "changed_files" (PList []) = Ok changed ->
  analyze_commit_with_code_llama B w commit_data changed = Raise e ->
  (forall w', analyze_commit_with_ollama B w' commit_data = Ok analysis) ->
  let (r, w') := process_commit_with_agents B cid commit_data w in
  r = Ok [result_entry (agent_interactions_seq w + 2) "ollama" analysis] /\
  map (fun ai => (commit_id ai, agent_type ai, status ai)) (agent_interactions w')
  = map (fun ai => (commit_id ai, agent_type ai, status ai)) (agent_interactions w)
    ++ [(Some cid, "code_llama", Some "failed");
        (Some cid, "ollama", Some "completed")].
Proof.
  intros Href Hd Ha Hcf Hfail Hok.
  unfold process_commit_with_agents, wrap, bind, run_code_llama, run_ollama,
    try_except, bind, lift.
  rewrite Hcf, Hfail.
  unfold save_agent_interaction, transaction, insert_interaction, json_dumps, ret.
  simpl. rewrite Hd. simpl. rewrite Href. simpl.
  rewrite Hok. simpl. rewrite Ha. simpl. rewrite Href. simpl.
  split.
  - replace (agent_interactions_seq w + 2)%Z
      with (agent_interactions_seq w + 1 + 1)%Z by lia.
    reflexivity.
  - rewrite <- app_assoc. rewrite !map_app. reflexivity.
Qed.

End Dispatch.

(** C5, at the data the reconciliation loop dispatches.  The commit is
    stored, the first backend is unreachable and the second one answers,
    yet no interaction row is written and the call raises. *)
Theorem dispatch_of_fetched_commit_records_nothing :
  Examples.dispatched
  = PDict [("id", PInt 1); ("commit_hash", PStr "deadbeef");
           ("author", PStr "Ada"); ("message", PStr "fix bug");
           ("timestamp_commit", PDatetime 10); ("branch", PStr "main");
           ("repository_path", PStr "acme/widgets");
           ("changed_files", PList []); ("metadata", PDict [])] /\
  AgentOrchestrator.commit_data_of_row Examples.X0 (Examples.stored 1 "deadbeef" 10)
  = Ok Examples.dispatched /\
  AgentOrchestrator.process_commit_with_agents Examples.B0 1 Examples.dispatched
    Examples.one_pending
  = (Raise (DataStorageError "Failed to process commit with agents"
              (DataStorageError "Failed to save agent interaction"
                 (TypeError "Object of type datetime is not JSON serializable"))),
     Examples.one_pending) /\
  Services.agent_interactions Examples.one_pending = [].
Proof. repeat split. Qed.

(* --------------------------------------------------------------------- *)
(** *** Interpretation of a push payload *)

Section Push.

Import Services WebhookHandler.
Variable X : externals.

(** The loop has no handler of its own: the first entry whose processing
    raises ends it, and the entries after it are not looked at. *)
Lemma push_commits_aborts
    (event_data repository : pyval) (before rest : list pyval) (bad : pyval)
    (acc acc' : list pyval) (w w1 w2 : world) (e : exn) :
  push_commits X event_data repository before acc w = (Ok acc', w1) ->
  push_commit X event_data repository bad w1 = (Raise e, w2) ->
  push_commits X event_data repository (before ++ bad :: rest) acc w = (Raise e, w2).
Proof.
  revert acc w. induction before as [|c before IH]; intros acc w Hb Hbad; simpl in *.
  - unfold ret in Hb. injection Hb as -> ->.
    unfold bind. rewrite Hbad. reflexivity.
  - unfold bind in *.
    destruct (push_commit X event_data repository c w) as [[r|e'] w'].
    + now apply IH.
    + discriminate.
Qed.

Lemma filenames_of_paths (file : pyval) (rest : list pyval) :
  is_path file ->
  filenames (file :: rest) = Raise (TypeError "string indices must be integers").
Proof. intros [p ->]. reflexivity. Qed.

(** With the file lists the platform sends (lists of paths), the changed
    files cannot be computed as soon as one list is not empty. *)
Lemma changed_files_of_paths (commit_data : pyval) (modified added removed : list pyval) :
  py_get commit_data "modified" (PList []) = Ok (PList modified) ->
  py_get commit_data "added" (PList []) = Ok (PList added) ->
  py_get commit_data "removed" (PList []) = Ok (PList removed) ->
  Forall is_path (modified ++ added ++ removed) ->
  modified ++ added ++ removed <> [] ->
  changed_files_of commit_data = Raise (TypeError "string indices must be integers").
Proof.
  intros Hm Ha Hr Hall Hne. unfold changed_files_of, rbind.
  rewrite Hm, Ha. simpl. rewrite Hr. simpl.
  rewrite <- app_assoc.
  destruct (modified ++ added ++ removed) as [|f fs]; [congruence|].
  inversion Hall; subst. now rewrite filenames_of_paths.
Qed.


End Push.

(** C6, at a payload whose first entry is malformed and whose second is
    fine: the handler raises at the first entry and the second commit is
    not stored, although the same entry alone is stored without error. *)
Theorem malformed_commit_aborts_the_push :
  WebhookHandler.handle_push_event Examples.X0 Examples.two_commits_event Examples.empty
  = (Raise (DataStorageError "Failed to handle push event" (KeyError "author")),
     Examples.empty) /\
  Services.commits Examples.empty = [] /\
  fst (WebhookHandler.handle_push_event Examples.X0 Examples.second_only_event
         Examples.empty) = Ok [PStr "cafe"] /\
  map Services.commit_hash
    (Services.commits
       (snd (WebhookHandler.handle_push_event Examples.X0 Examples.second_only_event
               Examples.empty))) = ["cafe"].
Proof. repeat split. Qed.

(** C9, at the scenario of the specification (one commit of [acme/widgets]
    on [refs/heads/main] with modified files [["a.py"]]): the handler raises
    while it computes the changed files, and no commit is stored. *)
Theorem path_lists_make_the_push_fail :
  WebhookHandler.handle_push_event Examples.X0 Examples.scenario_event Examples.empty
  = (Raise (DataStorageError "Failed to handle push event"
              (TypeError "string indices must be integers")),
     Examples.empty) /\
  Services.commits Examples.empty = [] /\
  WebhookHandler.changed_files_of (Examples.entry "deadbeef" [PStr "a.py"])
  = Raise (TypeError "string indices must be integers").
Proof. repeat split. Qed.

(** The branch is the ref with every occurrence of [refs/heads/] removed,
    which is the ref without its prefix when there is no other occurrence. *)
Example branch_of_main : str_replace "refs/heads/" "" "refs/heads/main" = "main".
Proof. reflexivity. Qed.

Example branch_with_inner_occurrence :
  str_replace "refs/heads/" "" "refs/heads/release/refs/heads/x" = "release/x".
Proof. reflexivity. Qed.

(* --------------------------------------------------------------------- *)
(** *** Durable receipt of a delivery *)

Lemma varchar_short (n : nat) (s : string) :
  (String.length s <= n)%nat -> varchar n s = Ok s.
Proof.
  intro H. unfold varchar. apply Nat.leb_le in H. now rewrite H.
Qed.



Section Receipt.

Import Services WebhookHandler.
Variable X : externals.
Variable secret : option string.



(** Interpretation never rewrites an event row: it can only append. *)
Lemma get_commit_by_hash_pure (h : pyval) (w w' : world) (r : res (option commit)) :
  get_commit_by_hash h w = (r, w') -> w' = w.
Proof.
  unfold get_commit_by_hash, transaction, rbind.
  destruct (text_param h); intro H; now inversion H.
Qed.

Lemma build_commit_info_events
    (event_data repository h c : pyval) (w w' : world) (r : res pyval) :
  build_commit_info X event_data repository h c w = (r, w') ->
  github_events w' = github_events w /\ commits w' = commits w.
Proof.
  unfold build_commit_info.
  destruct (commit_info_of X event_data repository h c (current_time w));
    intro H; inversion H; subst; auto.
Qed.

Lemma save_commit_events (d : pyval) (w w' : world) (r : res Z) :
  save_commit d w = (r, w') -> github_events w' = github_events w.
Proof.
  unfold save_commit, transaction, rbind, insert_commit.
  destruct (commit_params_of d) as [p|e]; [|intro H; now inversion H].
  destruct (proposed_commit p (commits_seq w + 1) (current_time w)) as [new|e];
    [|intro H; now inversion H].
  simpl. destruct (upsert new (commits w)) as [rows i].
  intro H; inversion H; subst. reflexivity.
Qed.

Lemma push_commit_events
    (event_data repository c : pyval) (w w' : world) (r : res (option pyval)) :
  push_commit X event_data repository c w = (r, w') ->
  github_events w' = github_events w.
Proof.
  unfold push_commit, bind, lift, ret.
  destruct (py_getitem c "id") as [h|e]; [|intro H; now inversion H].
  destruct (get_commit_by_hash h w) as [[[found|]|e] w1] eqn:E1;
    apply get_commit_by_hash_pure in E1; subst w1;
    try (intro H; now inversion H).
  destruct (build_commit_info X event_data repository h c w) as [[info|e] w2] eqn:E2;
    apply build_commit_info_events in E2; destruct E2 as [E2 _];
    [|intro H; inversion H; subst; exact E2].
  destruct (save_commit info w2) as [[i|e] w3] eqn:E3;
    apply save_commit_events in E3;
    intro H; inversion H; subst; congruence.
Qed.

Lemma push_commits_events
    (event_data repository : pyval) (entries acc : list pyval)
    (w w' : world) (r : res (list pyval)) :
  push_commits X event_data repository entries acc w = (r, w') ->
  github_events w' = github_events w.
Proof.
  revert acc w. induction entries as [|c entries IH]; intros acc w; simpl.
  - unfold ret. intro H; now inversion H.
  - unfold bind.
    destruct (push_commit X event_data repository c w) as [[o|e] w1] eqn:E1;
      apply push_commit_events in E1.
    + intro H. apply IH in H. congruence.
    + intro H; inversion H; subst. exact E1.
Qed.

Lemma handle_push_event_events (event_data : pyval) (w w' : world) (r : res (list pyval)) :
  handle_push_event X event_data w = (r, w') ->
  github_events w' = github_events w.
Proof.
  unfold handle_push_event, wrap, bind, lift.
  destruct (py_getitem event_data "repository") as [r0|e]; [|intro H; now inversion H].
  destruct (py_getitem r0 "full_name") as [repo|e]; [|intro H; now inversion H].
  destruct (py_get event_data "commits" (PList [])) as [cs|e]; [|intro H; now inversion H].
  destruct (py_iter cs) as [entries|e]; [|intro H; now inversion H].
  destruct (push_commits X event_data repo entries [] w) as [[out|e] w1] eqn:E;
    apply push_commits_events in E; intro H; inversion H; subst; exact E.
Qed.

Lemma save_github_event_appends
    (event_type : string) (r ch d : pyval) (w w' : world) (o : res Z) :
  save_github_event event_type r ch d w = (o, w') ->
  exists extra, github_events w' = github_events w ++ extra.
Proof.
  unfold save_github_event, transaction.
  destruct (insert_event event_type r ch d w) as [[i w1]|e] eqn:E.
  - intro H; inversion H; subst. clear H.
    unfold insert_event, rbind in E.
    repeat match type of E with
           | match ?x with _ => _ end = _ => destruct x; [|discriminate]
           end.
    inversion E; subst. simpl. eexists. reflexivity.
  - intro H; inversion H; subst. exists []. now rewrite app_nil_r.
Qed.

Lemma handle_pull_request_event_appends (event_data : pyval) (w w' : world) (r : res pyval) :
  handle_pull_request_event event_data w = (r, w') ->
  exists extra, github_events w' = github_events w ++ extra.
Proof.
  unfold handle_pull_request_event, wrap, bind, lift, ret.
  destruct (pr_info_of event_data) as [[[repo sha] info]|e].
  - destruct (save_github_event "pull_request" repo sha info w) as [[i|e] w1] eqn:E;
      apply save_github_event_appends in E;
      intro H; inversion H; subst; exact E.
  - intro H; inversion H; subst. exists []. now rewrite app_nil_r.
Qed.




End Receipt.


(* --------------------------------------------------------------------- *)
(** *** The commit table of the hash-keyed store *)

Section HashKeyed.

Import Services.

Lemma upsert_hashes (new : commit) (rows : list commit) :
  map commit_hash (fst (upsert new rows))
  = if existsb (fun r => String.eqb (commit_hash r) (commit_hash new)) rows
    then map commit_hash rows
    else map commit_hash rows ++ [commit_hash new].
Proof.
  induction rows as [|r rows IH]; simpl; [reflexivity|].
  destruct (String.eqb (commit_hash r) (commit_hash new)) eqn:E; simpl.
  - reflexivity.
  - destruct (upsert new rows) as [rows' i]. simpl in *. rewrite IH.
    destruct (existsb _ rows); reflexivity.
Qed.

Lemma existsb_hash (h : string) (rows : list commit) :
  existsb (fun r => String.eqb (commit_hash r) h) rows = true <->
  In h (map commit_hash rows).
Proof.
  rewrite existsb_exists, in_map_iff. split.
  - intros [r [Hin E]]. apply String.eqb_eq in E. eauto.
  - intros [r [E Hin]]. exists r. split; [exact Hin|]. now apply String.eqb_eq.
Qed.

Lemma upsert_keeps_hashes (new : commit) (rows : list commit) (h : string) :
  In h (map commit_hash rows) -> In h (map commit_hash (fst (upsert new rows))).
Proof.
  intro H. rewrite upsert_hashes.
  destruct (existsb _ rows); [exact H|]. apply in_or_app. now left.
Qed.

Lemma upsert_stores_hash (new : commit) (rows : list commit) :
  In (commit_hash new) (map commit_hash (fst (upsert new rows))).
Proof.
  rewrite upsert_hashes.
  destruct (existsb _ rows) eqn:E.
  - now apply existsb_hash.
  - apply in_or_app. right. now left.
Qed.

(** [commit_hash UNIQUE] is an invariant of the upsert. *)
Lemma upsert_unique (new : commit) (rows : list commit) :
  NoDup (map commit_hash rows) -> NoDup (map commit_hash (fst (upsert new rows))).
Proof.
  intro H. rewrite upsert_hashes.
  destruct (existsb _ rows) eqn:E; [exact H|].
  apply NoDup_app; [exact H|repeat constructor; intros []|].
  intros x Hx [Hy|[]]. subst x.
  apply existsb_hash in Hx. congruence.
Qed.

Lemma find_hash_stored (h : string) (rows : list commit) :
  (exists r, find (fun r => String.eqb (commit_hash r) h) rows = Some r) <->
  In h (map commit_hash rows).
Proof.
  rewrite <- existsb_hash. split.
  - intros [r Hf]. apply find_some in Hf. apply existsb_exists. eauto.
  - intro H. apply existsb_exists in H. destruct H as [r [Hin E]].
    destruct (find (fun r => String.eqb (commit_hash r) h) rows) as [r'|] eqn:F.
    + eauto.
    + apply find_none with (x := r) in F; [congruence|exact Hin].
Qed.

(** What a successful [save_commit] did. *)
Lemma save_commit_inv (d : pyval) (w w' : world) (i : Z) :
  save_commit d w = (Ok i, w') ->
  exists p new,
    commit_params_of d = Ok p /\
    proposed_commit p (commits_seq w + 1) (current_time w) = Ok new /\
    commits w' = fst (upsert new (commits w)) /\
    i = snd (upsert new (commits w)).
Proof.
  unfold save_commit, transaction, rbind, insert_commit.
  destruct (commit_params_of d) as [p|e]; [|discriminate].
  destruct (proposed_commit p (commits_seq w + 1) (current_time w)) as [new|e] eqn:En;
    [|discriminate].
  simpl. destruct (upsert new (commits w)) as [rows j] eqn:E.
  intro H. inversion H; subst. exists p, new. rewrite E. repeat split; assumption.
Qed.

Lemma save_commit_failed (d : pyval) (w w' : world) (e : exn) :
  save_commit d w = (Raise e, w') -> w' = w.
Proof.
  unfold save_commit, transaction.
  destruct (rbind _ _) as [[i w1]|e']; intro H; now inversion H.
Qed.

Lemma proposed_commit_hash (p : commit_params) (n t : Z) (new : commit) :
  proposed_commit p n t = Ok new ->
  exists s, p_commit_hash p = PStr s /\ varchar 40 s = Ok (commit_hash new).
Proof.
  unfold proposed_commit. intro H.
  destruct (p_commit_hash p) as [| | |s| | |]; cbn [text_param rbind] in H;
    try discriminate.
  - repeat match type of H with
           | rbind ?x _ = _ => destruct x; cbn [rbind not_null] in H; try discriminate
           end.
  - exists s. split; [reflexivity|].
    repeat match type of H with
           | rbind (varchar 40 s) _ = _ =>
               destruct (varchar 40 s) as [h|] eqn:Eh; cbn [rbind] in H;
               try discriminate
           | rbind ?x _ = _ =>
               destruct x; cbn [rbind not_null] in H; try discriminate
           end.
    inversion H; subst. reflexivity.
Qed.

End HashKeyed.

(* --------------------------------------------------------------------- *)
(** *** Applying a push payload twice *)

Section Replay.

Import Services WebhookHandler.
Variable X : externals.

Lemma commit_info_hash (event_data repository h c : pyval) (now : Z) (info : pyval) :
  commit_info_of X event_data repository h c now = Ok info ->
  py_getitem info "commit_hash" = Ok h.
Proof.
  unfold commit_info_of. intro H.
  repeat match type of H with
         | rbind ?x _ = _ => destruct x; cbn [rbind] in H; try discriminate
         end.
  inversion H; subst. reflexivity.
Qed.

Lemma commit_params_hash (d : pyval) (p : commit_params) :
  commit_params_of d = Ok p -> py_getitem d "commit_hash" = Ok (p_commit_hash p).
Proof.
  unfold commit_params_of. intro H.
  destruct (py_getitem d "commit_hash") as [h|]; cbn [rbind] in H; [|discriminate].
  repeat match type of H with
         | rbind ?x _ = _ => destruct x; cbn [rbind] in H; try discriminate
         end.
  inversion H; subst. reflexivity.
Qed.

Lemma get_commit_by_hash_text (s : string) (w : world) :
  get_commit_by_hash (PStr s) w
  = (Ok (find (fun r => String.eqb (commit_hash r) s) (commits w)), w).
Proof. reflexivity. Qed.

(** An entry whose hash is stored is skipped, and nothing changes. *)
Lemma push_commit_skips (event_data repository c : pyval) (s : string) (w : world) :
  py_getitem c "id" = Ok (PStr s) ->
  stored s w ->
  push_commit X event_data repository c w = (Ok None, w).
Proof.
  intros Hid Hst. unfold push_commit, bind, lift. rewrite Hid.
  rewrite get_commit_by_hash_text.
  apply find_hash_stored in Hst. destruct Hst as [r ->]. reflexivity.
Qed.

(** An entry that was processed without error either was skipped because
    its hash was stored, or was saved under its hash cut to 40 characters. *)
Lemma push_commit_ok (event_data repository c : pyval) (o : option pyval) (w w' : world) :
  push_commit X event_data repository c w = (Ok o, w') ->
  exists s,
    py_getitem c "id" = Ok (PStr s) /\
    ((o = None /\ w' = w /\ stored s w) \/
     (o = Some (PStr s) /\
      exists s', varchar 40 s = Ok s' /\ stored s' w' /\
                 (forall h, stored h w -> stored h w') /\
                 (NoDup (map commit_hash (commits w)) ->
                  NoDup (map commit_hash (commits w'))))).
Proof.
  unfold push_commit, bind, lift, ret.
  destruct (py_getitem c "id") as [h|e]; [|discriminate].
  destruct (get_commit_by_hash h w) as [[[found|]|e] w0] eqn:Eg;
    pose proof (get_commit_by_hash_pure _ _ _ _ Eg); subst w0;
    [| |discriminate].
  - intro H. inversion H; subst. clear H.
    unfold get_commit_by_hash, transaction in Eg.
    destruct h as [| | |s| | |]; try discriminate.
    exists s. split; [reflexivity|]. left. repeat split.
    apply find_hash_stored. exists found.
    simpl in Eg. now inversion Eg.
  - destruct (build_commit_info X event_data repository h c w) as [[info|e] w2] eqn:Eb;
      [|discriminate].
    destruct (save_commit info w2) as [[i|e] w3] eqn:Es; [|discriminate].
    intro H. inversion H; subst. clear H.
    destruct (save_commit_inv _ _ _ _ Es) as (p & new & Hp & Hn & Hc & _).
    destruct (proposed_commit_hash _ _ _ _ Hn) as (s & Hs & Hv).
    assert (h = PStr s) as ->.
    { unfold build_commit_info in Eb.
      destruct (commit_info_of X event_data repository h c (current_time w))
        as [info'|] eqn:Ei; [|discriminate].
      inversion Eb; subst.
      apply commit_info_hash in Ei. apply commit_params_hash in Hp. congruence. }
    exists s. split; [reflexivity|]. right. split; [reflexivity|].
    exists (commit_hash new).
    destruct (build_commit_info_events _ _ _ _ _ _ _ _ Eb) as [_ Hc2].
    unfold stored. rewrite Hc, Hc2. repeat split.
    + exact Hv.
    + apply upsert_stores_hash.
    + intros h0. apply upsert_keeps_hashes.
    + apply upsert_unique.
Qed.

Lemma varchar_short_text (s s' : string) :
  short_text 40 (PStr s) = true -> varchar 40 s = Ok s' -> s' = s.
Proof.
  simpl. intros H Hv. apply Nat.leb_le in H.
  rewrite (varchar_short _ _ H) in Hv. now inversion Hv.
Qed.

Lemma push_commits_ok
    (event_data repository : pyval) (entries : list pyval) :
  forall (acc out : list pyval) (w w1 : world),
    push_commits X event_data repository entries acc w = (Ok out, w1) ->
    (forall h, stored h w -> stored h w1) /\
    (NoDup (map commit_hash (commits w)) -> NoDup (map commit_hash (commits w1))) /\
    exists saved,
      out = acc ++ saved /\
      (Forall (fun h => short_text 40 h = true) saved ->
       Forall (fun c => exists s, py_getitem c "id" = Ok (PStr s) /\ stored s w1) entries /\
       Forall (fun h => exists s, h = PStr s /\ stored s w1) saved).
Proof.
  induction entries as [|c entries IH]; intros acc out w w1; simpl.
  - unfold ret. intro H. inversion H; subst.
    repeat split; auto. exists []. rewrite app_nil_r. auto.
  - unfold bind.
    destruct (push_commit X event_data repository c w) as [[o|e] w'] eqn:Ec;
      [|discriminate].
    intro H. apply IH in H. destruct H as (Hkeep & Hnd & saved & Hout & Hall).
    destruct (push_commit_ok _ _ _ _ _ _ Ec) as (s & Hid & [(-> & -> & Hst)|(-> & s' & Hv & Hst & Hk & Hn)]).
    + repeat split; auto. exists saved. split; [exact Hout|].
      intro Hs. destruct (Hall Hs) as [He Hsv]. split; [|exact Hsv].
      constructor; [|exact He]. exists s. auto.
    + repeat split; auto.
      exists (PStr s :: saved). split.
      * rewrite Hout. now rewrite <- app_assoc.
      * intro Hs. inversion Hs as [|? ? Hs1 Hs2]; subst.
        destruct (Hall Hs2) as [He Hsv].
        pose proof (varchar_short_text _ _ Hs1 Hv). subst s'.
        split; constructor; auto; exists s; auto.
Qed.

Lemma push_commits_replay
    (event_data repository : pyval) (entries acc : list pyval) (w : world) :
  Forall (fun c => exists s, py_getitem c "id" = Ok (PStr s) /\ stored s w) entries ->
  push_commits X event_data repository entries acc w = (Ok acc, w).
Proof.
  induction 1 as [|c entries [s [Hid Hst]] _ IH]; simpl.
  - reflexivity.
  - unfold bind. rewrite (push_commit_skips _ _ _ _ _ Hid Hst). exact IH.
Qed.

(** C3, as the code has it.  When a push payload has been applied without
    error (and the hashes it reports fit the 40 characters of the column),
    applying the same payload again finds every commit stored, skips it and
    changes nothing: the result is the empty list and the database,
    including every field written by the first application, is the same.
    The hashes stay unique and each reported hash is stored. *)
Theorem replayed_push_changes_nothing :
  forall (event_data : pyval) (hashes : list pyval) (w w1 : world),
    NoDup (map commit_hash (commits w)) ->
    handle_push_event X event_data w = (Ok hashes, w1) ->
    Forall (fun h => short_text 40 h = true) hashes ->
    handle_push_event X event_data w1 = (Ok [], w1) /\
    NoDup (map commit_hash (commits w1)) /\
    Forall (fun h => exists s, h = PStr s /\ stored s w1) hashes.
Proof.
  intros event_data hashes w w1 Hnd H Hshort.
  unfold handle_push_event, wrap, bind, lift in *.
  destruct (py_getitem event_data "repository") as [r0|e]; [|discriminate].
  destruct (py_getitem r0 "full_name") as [repo|e]; [|discriminate].
  destruct (py_get event_data "commits" (PList [])) as [cs|e]; [|discriminate].
  destruct (py_iter cs) as [entries|e]; [|discriminate].
  destruct (push_commits X event_data repo entries [] w) as [[out|e] w'] eqn:E;
    [|discriminate].
  inversion H; subst. clear H.
  destruct (push_commits_ok _ _ _ _ _ _ _ E) as (_ & Hn & saved & Hout & Hall).
  simpl in Hout. subst saved.
  destruct (Hall Hshort) as [He Hs].
  rewrite (push_commits_replay _ _ _ _ _ He). auto.
Qed.

End Replay.

Lemma replayed_push_witness :
  let w1 := snd (WebhookHandler.handle_push_event Examples.X0 Examples.replay_event
                   Examples.empty) in
  WebhookHandler.handle_push_event Examples.X0 Examples.replay_event w1 = (Ok [], w1) /\
  NoDup (map Services.commit_hash (Services.commits w1)) /\
  Forall (fun h => exists s, h = PStr s /\ Services.stored s w1) [PStr "deadbeef"].
Proof.
  apply (replayed_push_changes_nothing Examples.X0 Examples.replay_event
           [PStr "deadbeef"] Examples.empty).
  - constructor.
  - reflexivity.
  - repeat constructor.
Defined.

(** C3, as the claim states it, fails on the metadata: after the second
    application the stored [event_timestamp] is still the one of the first
    application, not the one the second application supplies. *)
Lemma replay_keeps_first_metadata :
  let w1 := snd (WebhookHandler.handle_push_event Examples.X0 Examples.replay_event
                   Examples.empty) in
  let w2 := snd (WebhookHandler.handle_push_event Examples.X0 Examples.replay_event w1) in
  let supplied (t : string) :=
    PDict [("github_event_id", PStr "deadbeef"); ("pusher", PStr "ada");
           ("event_timestamp", PStr t)] in
  rbind (WebhookHandler.commit_info_of Examples.X0 Examples.replay_event
           (PStr "acme/widgets") (PStr "deadbeef") (Examples.entry "deadbeef" [])
           (Services.current_time w1))
        (fun info => py_getitem info "metadata") = Ok (supplied "T+") /\
  map Services.metadata (Services.commits w2) = [supplied "T0"] /\
  map Services.metadata (Services.commits w2) <> [supplied "T+"].
Proof.
  repeat split. discriminate.
Qed.

(* --------------------------------------------------------------------- *)
(** *** Commit identity in the repository-aware store *)

Section RepositoryKeyed.

Import Legacy.

Lemma same_key_overwrite_l (r new x : commit) :
  same_key (overwrite r new) x = same_key r x.
Proof. reflexivity. Qed.






Lemma legacy_save_commit_inv (d : pyval) (w w' : world) (i : Z) :
  save_commit d w = (Ok i, w') ->
  exists p new,
    commit_params_of d = Ok p /\
    proposed_commit p (commits_seq w + 1) (current_time w) = Ok new /\
    commits w' = fst (upsert new (commits w)) /\
    i = snd (upsert new (commits w)) /\
    repositories w' = repositories w.
Proof.
  unfold save_commit, transaction, rbind, insert_commit.
  destruct (commit_params_of d) as [p|e]; [|discriminate].
  destruct (proposed_commit p (commits_seq w + 1) (current_time w)) as [new|e] eqn:En;
    [|discriminate].
  cbn [rbind].
  destruct (references_repository (repositories w) (repository_id new));
    [|intro H; discriminate H].
  destruct (upsert new (commits w)) as [rows j] eqn:E.
  intro H. inversion H; subst. exists p, new. rewrite E.
  repeat split; try assumption; reflexivity.
Qed.


Lemma proposed_commit_key (p : commit_params) (n t : Z) (new : commit) :
  proposed_commit p n t = Ok new ->
  (exists s, p_commit_hash p = PStr s /\ varchar 40 s = Ok (commit_hash new)) /\
  int_param (p_repository_id p) = Ok (repository_id new).
Proof.
  unfold proposed_commit. intro H.
  destruct (p_commit_hash p) as [| | |s| | |]; cbn [text_param rbind] in H;
    try discriminate.
  - repeat match type of H with
           | rbind ?x _ = _ => destruct x; cbn [rbind not_null] in H; try discriminate
           end.
  - destruct (int_param (p_repository_id p)) as [ri|] eqn:Eri; cbn [rbind] in H;
      [|discriminate].
    repeat match type of H with
           | rbind (varchar 40 s) _ = _ =>
               destruct (varchar 40 s) as [h|] eqn:Eh; cbn [rbind] in H;
               try discriminate
           | rbind ?x _ = _ =>
               destruct x; cbn [rbind not_null] in H; try discriminate
           end.
    inversion H; subst. simpl. split; [|reflexivity].
    exists s. split; [reflexivity|exact Eh].
Qed.

Lemma commit_params_key (d : pyval) (p : commit_params) :
  commit_params_of d = Ok p ->
  py_getitem d "commit_hash" = Ok (p_commit_hash p) /\
  py_get d "repository_id" PNone = Ok (p_repository_id p).
Proof.
  unfold commit_params_of. intro H.
  destruct (py_getitem d "commit_hash") as [h|]; cbn [rbind] in H; [|discriminate].
  destruct (py_get d "repository_id" PNone) as [ri|]; cbn [rbind] in H; [|discriminate].
  repeat match type of H with
         | rbind ?x _ = _ => destruct x; cbn [rbind] in H; try discriminate
         end.
  inversion H; subst. split; reflexivity.
Qed.


End RepositoryKeyed.



(* --------------------------------------------------------------------- *)
(** *** The repository registry *)

Section Registry.

Import Legacy RepositoryManager.

(** What both conflict actions keep of the stored row. *)
Variable on_conflict : repository -> repository -> repository.
Hypothesis keeps_identity :
  forall old new, full_name (on_conflict old new) = full_name old /\
                  repo_id (on_conflict old new) = repo_id old.



(** The row the upsert leaves for the full name, and the id it returns. *)
Lemma upsert_repository_spec (new : repository) (rows : list repository) :
  let this := fun r => String.eqb (full_name r) (full_name new) in
  exists x,
    find this (fst (upsert_repository on_conflict new rows)) = Some x /\
    repo_id x = snd (upsert_repository on_conflict new rows) /\
    match find this rows with
    | Some r0 => x = on_conflict r0 new /\
                 List.length (fst (upsert_repository on_conflict new rows))
                 = List.length rows
    | None => x = new /\
              List.length (fst (upsert_repository on_conflict new rows))
              = S (List.length rows)
    end.
Proof.
  intro this. unfold this. induction rows as [|r rows IH]; simpl.
  - exists new. rewrite String.eqb_refl. auto.
  - destruct (String.eqb (full_name r) (full_name new)) eqn:E; simpl.
    + exists (on_conflict r new).
      destruct (keeps_identity r new) as [Hf Hi]. rewrite Hf, E. auto.
    + destruct (upsert_repository on_conflict new rows) as [rows' i]. simpl in *.
      rewrite E. destruct IH as (x & Hx & Hid & Hm). exists x.
      repeat split; auto.
      destruct (find _ rows); destruct Hm as [-> Hl]; split; auto; now rewrite Hl.
Qed.

End Registry.

Section Ensure.

Import Legacy RepositoryManager.


Lemma proposed_repository_fits
    (o n : string) (d l : option string) (p : bool) (i t : Z) :
  (String.length o <= 255)%nat ->
  (String.length n <= 255)%nat ->
  (String.length (o ++ "/" ++ n) <= 500)%nat ->
  fits_language l ->
  proposed_repository o n d l p i t
  = Ok {| repo_id := i; name := n; owner := o; full_name := o ++ "/" ++ n;
          description := d; language := l; is_private := p;
          created_at := t; updated_at := t |}.
Proof.
  intros Ho Hn Hf Hl. unfold proposed_repository.
  rewrite (varchar_short _ _ Hn). cbn [rbind].
  rewrite (varchar_short _ _ Ho). cbn [rbind].
  rewrite (varchar_short _ _ Hf). cbn [rbind].
  destruct l as [s|]; simpl in *.
  - rewrite (varchar_short _ _ Hl). reflexivity.
  - reflexivity.
Qed.




Lemma touch_keeps_identity (old new : repository) :
  full_name (touch old new) = full_name old /\ repo_id (touch old new) = repo_id old.
Proof. split; reflexivity. Qed.

Lemma refresh_keeps_identity (old new : repository) :
  full_name (refresh old new) = full_name old /\ repo_id (refresh old new) = repo_id old.
Proof. split; reflexivity. Qed.


(** What a successful [ensure_repository_isolation] did. *)
Lemma ensure_inv (o n : string) (w w1 : world) (i : Z) :
  (String.length o <= 255)%nat ->
  (String.length n <= 255)%nat ->
  (String.length (o ++ "/" ++ n) <= 500)%nat ->
  Legacy.ensure_repository_isolation o n w = (Ok i, w1) ->
  let new := {| repo_id := repositories_seq w + 1; name := n; owner := o;
                full_name := o ++ "/" ++ n; description := None;
                language := None; is_private := false;
                created_at := current_time w; updated_at := current_time w |} in
  repositories w1 = fst (upsert_repository touch new (repositories w)) /\
  i = snd (upsert_repository touch new (repositories w)) /\
  commits w1 = map (backfill_row i n) (commits w) /\
  unique_keys (commits w1) = true.
Proof.
  intros Ho Hn Hf. unfold Legacy.ensure_repository_isolation, transaction, ensure_statement.
  rewrite (proposed_repository_fits o n None None false _ _ Ho Hn Hf I).
  cbn [rbind].
  destruct (upsert_repository touch _ (repositories w)) as [repos j] eqn:E.
  unfold backfill.
  destruct (unique_keys (map (backfill_row j n) (commits w))) eqn:U; cbn [rbind];
    [|discriminate].
  intro H. inversion H; subst. simpl. auto.
Qed.

(** [register_repository] succeeds whenever the texts fit their columns. *)
Lemma register_ok (o n : string) (d l : option string) (p : bool) (w : world) :
  (String.length o <= 255)%nat ->
  (String.length n <= 255)%nat ->
  (String.length (o ++ "/" ++ n) <= 500)%nat ->
  fits_language l ->
  let new := {| repo_id := repositories_seq w + 1; name := n; owner := o;
                full_name := o ++ "/" ++ n; description := d; language := l;
                is_private := p; created_at := current_time w;
                updated_at := current_time w |} in
  register_repository o n d l p w
  = (Ok (snd (upsert_repository refresh new (repositories w))),
     {| repositories := fst (upsert_repository refresh new (repositories w));
        repositories_seq := repositories_seq w + 1;
        commits := commits w; commits_seq := commits_seq w;
        clock := clock w; ticks := S (ticks w) |}).
Proof.
  intros Ho Hn Hf Hl new.
  unfold register_repository, transaction, register_statement.
  rewrite (proposed_repository_fits o n d l p _ _ Ho Hn Hf Hl). cbn [rbind].
  fold new. destruct (upsert_repository refresh new (repositories w)). reflexivity.
Qed.


End Ensure.

(** A call that back-fills succeeds when the back-fill cannot collide with
    a stored (commit_hash, repository_id). *)
Lemma ensure_succeeds (o n : string) (w : Legacy.world) :
  (String.length o <= 255)%nat ->
  (String.length n <= 255)%nat ->
  (String.length (o ++ "/" ++ n) <= 500)%nat ->
  (forall i, Legacy.unique_keys (map (Legacy.backfill_row i n) (Legacy.commits w)) = true) ->
  exists i w1, Legacy.ensure_repository_isolation o n w = (Ok i, w1).
Proof.
  intros Ho Hn Hf Hsafe.
  unfold Legacy.ensure_repository_isolation, Legacy.transaction, Legacy.ensure_statement.
  rewrite (proposed_repository_fits o n None None false _ _ Ho Hn Hf I).
  cbn [rbind].
  destruct (Legacy.upsert_repository Legacy.touch _ (Legacy.repositories w)) as [repos j].
  unfold Legacy.backfill. rewrite Hsafe. cbn [rbind]. eauto.
Qed.


(* --------------------------------------------------------------------- *)
(** *** The listings and the repository named Practice_Repo *)

Section Listings.

Import Legacy RepositoryManager.

Lemma in_firstn {A} (n : nat) (l : list A) (x : A) : In x (firstn n l) -> In x l.
Proof.
  revert l. induction n as [|n IH]; intros [|y l]; simpl; try tauto.
  intros [->|H]; [now left|right; now apply IH].
Qed.






Lemma not_practice_holds (a b : option string) :
  sql_holds (sql_and (not_practice a) (not_practice b))
  = negb (is_practice a || is_practice b).
Proof.
  unfold not_practice, is_practice.
  destruct a as [x|], b as [y|]; simpl;
    repeat match goal with
           | |- context [String.eqb ?s "Practice_Repo"] =>
               destruct (String.eqb s "Practice_Repo")
           end; reflexivity.
Qed.



End Listings.




(* ===================================================================== *)
(** ** Further properties of the handler and of the server *)
(* ===================================================================== *)

Section Deliveries.

Import Services WebhookHandler.
Variable X : externals.

(** X1.  With a secret configured, [verify_signature] answers [True] only
    for the expected [sha256=<digest>] text, and does answer [True] for it
    when the digest is ASCII; without a secret ([None] or the empty string)
    it answers [True] for every signature. *)
Theorem verify_signature_accepts_only_the_expected_signature :
  forall (secret payload signature : string),
    secret <> "" ->
    (verify_signature X (Some secret) payload signature = Ok true ->
     signature = expected_signature X secret payload) /\
    (is_ascii (expected_signature X secret payload) = true ->
     verify_signature X (Some secret) payload (expected_signature X secret payload)
     = Ok true) /\
    verify_signature X None payload signature = Ok true /\
    verify_signature X (Some "") payload signature = Ok true.
Proof.
  intros secret payload signature Hs. apply String.eqb_neq in Hs.
  unfold verify_signature. rewrite Hs. repeat split.
  - unfold compare_digest.
    destruct (is_ascii signature && is_ascii (expected_signature X secret payload));
      [|discriminate].
    intro H. inversion H as [E]. now apply String.eqb_eq.
  - intro Ha. unfold compare_digest. rewrite Ha. simpl.
    now rewrite String.eqb_refl.
Qed.

(** X2.  A delivery whose signature verifies but whose body does not parse,
    or whose [repository], [head_commit] or [pull_request] fields cannot be
    read, makes [handle_webhook] raise before anything is stored: the
    database is as it was. *)
Theorem unreadable_delivery_is_rejected_without_write :
  forall (secret : option string) (event_type payload : string)
         (signature : option string) (w : world),
    verify_signature X secret payload (signature_or_empty signature) = Ok true ->
    match json_loads X payload with
    | Ok event_data => exists e, receipt_fields event_type event_data = Raise e
    | Raise _ => True
    end ->
    exists e,
      handle_webhook X secret event_type payload signature w
      = (Raise (DataStorageError "Failed to handle webhook" e), w).
Proof.
  intros secret event_type payload signature w Hsig Hbad.
  unfold handle_webhook, wrap, bind, lift. rewrite Hsig. simpl.
  destruct (json_loads X payload) as [event_data|e].
  - destruct Hbad as [e He]. rewrite He. eexists. reflexivity.
  - eexists. reflexivity.
Qed.




(** [handle_webhook] raises nothing but its own [DataStorageError]. *)
Lemma handle_webhook_raises_storage_errors
    (secret : option string) (event_type payload : string)
    (signature : option string) (w w' : world) (e : exn) :
  handle_webhook X secret event_type payload signature w = (Raise e, w') ->
  exists cause, e = DataStorageError "Failed to handle webhook" cause.
Proof.
  unfold handle_webhook, wrap.
  match goal with
  | |- context [match ?c w with _ => _ end] => destruct (c w) as [[a|e0] w0]
  end; intro H; inversion H; subst. eauto.
Qed.

(** X4.  The route [/webhook/github] answers 200 exactly when
    [handle_webhook] returns, and 500 otherwise: the 401 branch is never
    taken, because [handle_webhook] turns every exception, the
    [ValueError] of a bad signature included, into its own error class. *)
Theorem github_webhook_never_answers_401 :
  forall (secret : option string) (payload : string)
         (signature_header event_header : option string) (w : world),
    let response := WebhookServer.github_webhook X secret payload
                      signature_header event_header w in
    fst (fst response) <> 401%Z /\
    (fst (fst response) = 200%Z <->
     exists out,
       fst (handle_webhook X secret (WebhookServer.header_or_empty event_header)
              payload (Some (WebhookServer.header_or_empty signature_header)) w)
       = Ok out) /\
    (fst (fst response) = 200%Z \/ fst (fst response) = 500%Z).
Proof.
  intros secret payload sh eh w. unfold WebhookServer.github_webhook. cbv zeta.
  destruct (handle_webhook X secret (WebhookServer.header_or_empty eh) payload
              (Some (WebhookServer.header_or_empty sh)) w) as [[out|e] w'] eqn:E.
  - simpl. repeat split; try discriminate; eauto.
  - destruct (handle_webhook_raises_storage_errors _ _ _ _ _ _ _ E) as [cause ->].
    simpl. repeat split; try discriminate; auto.
    intros [out H]. discriminate.
Qed.

(** X5.  With a secret configured, a delivery with a wrong or missing
    signature header is answered with status 500 and leaves the database
    as it was. *)
Theorem wrong_signature_is_answered_500 :
  forall (secret payload : string) (signature_header event_header : option string)
         (w : world),
    secret <> "" ->
    WebhookServer.header_or_empty signature_header
    <> expected_signature X secret payload ->
    let response := WebhookServer.github_webhook X (Some secret) payload
                      signature_header event_header w in
    fst (fst response) = 500%Z /\ snd response = w.
Proof.
  intros secret payload sh eh w Hs Hne. unfold WebhookServer.github_webhook. cbv zeta.
  unfold handle_webhook, wrap, bind, lift, verify_signature.
  apply String.eqb_neq in Hs. rewrite Hs. simpl signature_or_empty.
  destruct (compare_digest_differs _ _ Hne) as [E|[m E]]; rewrite E; simpl; auto.
Qed.

End Deliveries.

Lemma verify_signature_witness :
  WebhookHandler.verify_signature Examples.X0 (Some "s3cret") Examples.push_body
    "sha256=00ff" = Ok true.
Proof.
  destruct (verify_signature_accepts_only_the_expected_signature Examples.X0
              "s3cret" Examples.push_body "sha256=00ff") as (_ & H & _).
  - discriminate.
  - apply H. reflexivity.
Defined.

Lemma unreadable_delivery_witness :
  exists e,
    WebhookHandler.handle_webhook Examples.X0 (Some "s3cret") "push" "not json"
      (Some "sha256=00ff") Examples.empty
    = (Raise (DataStorageError "Failed to handle webhook" e), Examples.empty).
Proof.
  apply (unreadable_delivery_is_rejected_without_write Examples.X0 (Some "s3cret")
           "push" "not json" (Some "sha256=00ff") Examples.empty).
  - reflexivity.
  - exact I.
Defined.


Lemma wrong_signature_500_witness :
  fst (fst (WebhookServer.github_webhook Examples.X0 (Some "s3cret")
              Examples.push_body (Some "sha256=bad") (Some "push") Examples.empty))
  = 500%Z.
Proof.
  apply (wrong_signature_is_answered_500 Examples.X0 "s3cret" Examples.push_body
           (Some "sha256=bad") (Some "push") Examples.empty).
  - discriminate.
  - vm_compute. discriminate.
Defined.

(* --------------------------------------------------------------------- *)
(** *** Text replacement and the branch of a commit *)

Lemma prefix_app (s b : string) : String.prefix s (s ++ b)%string = true.
Proof.
  induction s as [|c s IH]; simpl.
  - now destruct b.
  - destruct (ascii_dec c c); [exact IH|congruence].
Qed.

Lemma replace_from_skips (old new s1 b : string) :
  replace_from old new (s1 ++ b)%string (String.length s1) = replace_from old new b 0.
Proof.
  induction s1 as [|c s1 IH]; simpl; [reflexivity|exact IH].
Qed.

Lemma str_replace_prefix (old new b : string) :
  old <> "" -> str_replace old new (old ++ b)%string = (new ++ str_replace old new b)%string.
Proof.
  intro Hne. unfold str_replace.
  destruct old as [|c o]; [congruence|].
  change (String c o ++ b)%string with (String c (o ++ b)%string).
  cbn [replace_from].
  change (String c (o ++ b)%string) with (String c o ++ b)%string. rewrite prefix_app.
  cbn [String.length]. rewrite Nat.sub_succ, Nat.sub_0_r.
  now rewrite replace_from_skips.
Qed.

Lemma str_replace_absent (old new s : string) :
  occurs old s = false -> str_replace old new s = s.
Proof.
  unfold str_replace. induction s as [|c s IH]; [reflexivity|].
  cbn [occurs]. intro H. apply orb_false_iff in H. destruct H as [Hp Ho].
  cbn [replace_from]. rewrite Hp. now rewrite IH.
Qed.

Section PushDetails.

Import Services WebhookHandler.
Variable X : externals.

Lemma commit_info_branch
    (event_data repository h c : pyval) (now : Z) (info : pyval) (ref : string) :
  commit_info_of X event_data repository h c now = Ok info ->
  py_getitem event_data "ref" = Ok (PStr ref) ->
  py_getitem info "branch" = Ok (PStr (str_replace "refs/heads/" "" ref)).
Proof.
  unfold commit_info_of. intros H Href.
  repeat match type of H with
         | rbind (py_getitem event_data "ref") _ = _ =>
             rewrite Href in H; cbn [rbind py_replace] in H
         | rbind ?x _ = _ => destruct x; cbn [rbind] in H; try discriminate
         end.
  inversion H; subst. reflexivity.
Qed.

(** X6.  The branch stored with a commit is the [ref] of the payload with
    every [refs/heads/] removed: for [refs/heads/<b>] where [b] holds no
    further [refs/heads/] it is [b], and a ref without [refs/heads/] (a
    tag, say) is stored whole as the branch. *)
Theorem branch_is_the_ref_without_refs_heads :
  forall (event_data repository h c : pyval) (now : Z) (info : pyval) (ref : string),
    commit_info_of X event_data repository h c now = Ok info ->
    py_getitem event_data "ref" = Ok (PStr ref) ->
    (forall b, ref = ("refs/heads/" ++ b)%string -> occurs "refs/heads/" b = false ->
               py_getitem info "branch" = Ok (PStr b)) /\
    (occurs "refs/heads/" ref = false -> py_getitem info "branch" = Ok (PStr ref)).
Proof.
  intros event_data repository h c now info ref Hinfo Href.
  rewrite (commit_info_branch _ _ _ _ _ _ _ Hinfo Href). split.
  - intros b -> Hb.
    rewrite (str_replace_prefix "refs/heads/" "" b) by discriminate.
    now rewrite (str_replace_absent _ _ _ Hb).
  - intro Hr. now rewrite (str_replace_absent _ _ _ Hr).
Qed.


(** X8.  A push payload without commits (no [commits] key, or an empty
    list) returns the empty list and changes nothing; but the full name of
    the repository is read first, so a payload without [repository] raises
    even then. *)
Theorem push_without_commits_writes_nothing :
  forall (event_data : pyval) (w : world),
    py_get event_data "commits" (PList []) = Ok (PList []) ->
    (forall r0 repository,
        py_getitem event_data "repository" = Ok r0 ->
        py_getitem r0 "full_name" = Ok repository ->
        handle_push_event X event_data w = (Ok [], w)) /\
    (forall e,
        py_getitem event_data "repository" = Raise e ->
        handle_push_event X event_data w
        = (Raise (DataStorageError "Failed to handle push event" e), w)).
Proof.
  intros event_data w Hc. split.
  - intros r0 repository H0 H1.
    unfold handle_push_event, wrap, bind, lift. now rewrite H0, H1, Hc.
  - intros e H0. unfold handle_push_event, wrap, bind, lift. now rewrite H0.
Qed.

Lemma push_commit_raise_keeps_commits
    (event_data repository c : pyval) (w w' : world) (e : exn) :
  push_commit X event_data repository c w = (Raise e, w') ->
  commits w' = commits w.
Proof.
  unfold push_commit, bind, lift, ret.
  destruct (py_getitem c "id") as [h|e0]; [|intro H; now inversion H].
  destruct (get_commit_by_hash h w) as [[[found|]|e1] w1] eqn:E1;
    apply get_commit_by_hash_pure in E1; subst w1;
    try (intro H; now inversion H).
  destruct (build_commit_info X event_data repository h c w) as [[info|e2] w2] eqn:E2;
    apply build_commit_info_events in E2; destruct E2 as [_ E2];
    [|intro H; inversion H; subst; exact E2].
  destruct (save_commit info w2) as [[i|e3] w3] eqn:E3; [discriminate|].
  apply save_commit_failed in E3. intro H. inversion H; subst. exact E2.
Qed.

(** X9.  A push is not applied atomically: when the entries before a
    malformed entry were processed, [handle_push_event] raises with the
    error of the malformed entry, the commits stored for the earlier
    entries stay stored, and nothing of the entries after it is looked at
    (the outcome does not depend on them). *)
Theorem push_keeps_commits_before_the_failing_entry :
  forall (event_data r0 repository bad : pyval) (before rest acc : list pyval)
         (w w1 w2 : world) (e : exn),
    py_getitem event_data "repository" = Ok r0 ->
    py_getitem r0 "full_name" = Ok repository ->
    py_get event_data "commits" (PList []) = Ok (PList (before ++ bad :: rest)) ->
    push_commits X event_data repository before [] w = (Ok acc, w1) ->
    push_commit X event_data repository bad w1 = (Raise e, w2) ->
    handle_push_event X event_data w
    = (Raise (DataStorageError "Failed to handle push event" e), w2) /\
    commits w2 = commits w1.
Proof.
  intros event_data r0 repository bad before rest acc w w1 w2 e H0 H1 Hc Hb Hbad.
  split.
  - unfold handle_push_event, wrap, bind, lift. rewrite H0, H1, Hc.
    cbn [py_iter].
    now rewrite (push_commits_aborts X _ _ _ rest _ _ _ _ _ _ _ Hb Hbad).
  - eapply push_commit_raise_keeps_commits. exact Hbad.
Qed.

End PushDetails.

Lemma branch_witness :
  rbind (WebhookHandler.commit_info_of Examples.X0 Examples.replay_event
           (PStr "acme/widgets") (PStr "deadbeef") (Examples.entry "deadbeef" []) 0)
        (fun info => py_getitem info "branch") = Ok (PStr "main").
Proof.
  destruct (WebhookHandler.commit_info_of Examples.X0 Examples.replay_event
              (PStr "acme/widgets") (PStr "deadbeef") (Examples.entry "deadbeef" []) 0)
    as [info|e] eqn:E; [|vm_compute in E; discriminate E].
  destruct (branch_is_the_ref_without_refs_heads Examples.X0 Examples.replay_event
              (PStr "acme/widgets") (PStr "deadbeef") (Examples.entry "deadbeef" []) 0
              info "refs/heads/main" E eq_refl) as [H _].
  simpl. apply (H "main"); reflexivity.
Defined.


Lemma push_without_commits_witness :
  WebhookHandler.handle_push_event Examples.X0 (Examples.push_event []) Examples.empty
  = (Ok [], Examples.empty).
Proof.
  destruct (push_without_commits_writes_nothing Examples.X0 (Examples.push_event [])
              Examples.empty eq_refl) as [H _].
  apply (H (PDict [("full_name", PStr "acme/widgets")]) (PStr "acme/widgets"));
    reflexivity.
Defined.

Lemma push_keeps_commits_witness :
  let event := Examples.push_event MoreExamples.good_then_broken in
  let w2 := snd (WebhookHandler.handle_push_event Examples.X0 event Examples.empty) in
  fst (WebhookHandler.handle_push_event Examples.X0 event Examples.empty)
  = Raise (DataStorageError "Failed to handle push event" (KeyError "author")) /\
  map Services.commit_hash (Services.commits w2) = ["cafe"].
Proof.
  intros event w2.
  destruct (WebhookHandler.push_commits Examples.X0 event (PStr "acme/widgets")
              [Examples.entry "cafe" []] [] Examples.empty) as [[acc|e1] w1] eqn:E1;
    [|vm_compute in E1; discriminate E1].
  destruct (WebhookHandler.push_commit Examples.X0 event (PStr "acme/widgets")
              Examples.broken_entry w1) as [[o|e] w2'] eqn:E2.
  - exfalso. vm_compute in E1. inversion E1; subst. vm_compute in E2. discriminate E2.
  - destruct (push_keeps_commits_before_the_failing_entry Examples.X0 event
                (PDict [("full_name", PStr "acme/widgets")]) (PStr "acme/widgets")
                Examples.broken_entry [Examples.entry "cafe" []] [] acc
                Examples.empty w1 w2' e eq_refl eq_refl eq_refl E1 E2) as [H Hc].
    unfold w2. rewrite H. simpl. split.
    + vm_compute in E1. inversion E1; subst. vm_compute in E2. now inversion E2.
    + rewrite Hc. vm_compute in E1. now inversion E1.
Defined.

(* --------------------------------------------------------------------- *)
(** *** Event rows and their replay *)

Section EventRows.

Import Services WebhookHandler Reconciliation.
Variable X : externals.

Lemma json_dumps_ok (v v' : pyval) : json_dumps v = Ok v' -> v' = v.
Proof.
  unfold json_dumps. destruct (json_serializable v); intro H; now inversion H.
Qed.

Lemma text_param_not_null (v : pyval) (o : option string) (column s : string) :
  text_param v = Ok o -> not_null column o = Ok s -> v = PStr s.
Proof.
  destruct v; simpl; intro H; inversion H; subst; simpl; intro H'; now inversion H'.
Qed.

(** What a successful [save_github_event] did. *)
Lemma save_github_event_inv
    (et : string) (r ch d : pyval) (w w' : world) (i : Z) :
  save_github_event et r ch d w = (Ok i, w') ->
  exists rs row,
    r = PStr rs /\
    github_events w' = github_events w ++ [row] /\
    processed row = false /\ event_data row = d /\
    varchar 50 et = Ok (event_type row) /\ ev_id row = i /\
    commits w' = commits w.
Proof.
  unfold save_github_event, transaction, insert_event. intro H.
  destruct (json_dumps d) as [d0|] eqn:Ed; cbn [rbind] in H; [|discriminate].
  apply json_dumps_ok in Ed. subst d0.
  destruct (text_param r) as [r0|] eqn:Er; cbn [rbind] in H; [|discriminate].
  destruct (text_param ch) as [h0|] eqn:Eh; cbn [rbind] in H; [|discriminate].
  destruct (varchar 50 et) as [et'|] eqn:Ee; cbn [rbind] in H; [|discriminate].
  destruct (not_null "repository" r0) as [r1|] eqn:En; cbn [rbind] in H; [|discriminate].
  destruct (varchar 255 r1) as [r2|] eqn:Ev; cbn [rbind] in H; [|discriminate].
  destruct (varchar_opt 40 h0) as [h1|] eqn:Eo; cbn [rbind] in H; [|discriminate].
  inversion H; subst. clear H.
  exists r1. eexists. split; [eapply text_param_not_null; eassumption|].
  simpl. repeat split.
Qed.

Lemma pr_info_repository (event_data repository sha info : pyval) :
  pr_info_of event_data = Ok (repository, sha, info) ->
  py_getitem info "repository" = Ok repository.
Proof.
  unfold pr_info_of. intro H.
  repeat match type of H with
         | rbind ?x _ = _ => destruct x; cbn [rbind] in H; try discriminate
         end.
  inversion H; subst. reflexivity.
Qed.

(** X10.  Handling a pull-request event writes a second event row, not
    marked processed, whose data is the extracted summary.  That row can
    never be replayed: on the summary [handle_pull_request_event] always
    raises, because it reads [repository] as an object and the summary
    holds the full name as text. *)
Theorem pull_request_summary_row_cannot_be_replayed :
  forall (event_data info : pyval) (w w' : world),
    handle_pull_request_event event_data w = (Ok info, w') ->
    (exists row,
        github_events w' = github_events w ++ [row] /\
        processed row = false /\
        event_type row = "pull_request" /\
        Services.event_data row = info) /\
    (forall w'', exists e,
        handle_pull_request_event info w''
        = (Raise (DataStorageError "Failed to handle pull request event" e), w'')).
Proof.
  intros event_data info w w'.
  unfold handle_pull_request_event at 1. unfold wrap, bind, lift, ret.
  destruct (pr_info_of event_data) as [[[repository sha] info0]|e] eqn:Ei;
    [|discriminate].
  destruct (save_github_event "pull_request" repository sha info0 w)
    as [[i|e] w1] eqn:Es; [|discriminate].
  intro H. inversion H; subst. clear H.
  destruct (save_github_event_inv _ _ _ _ _ _ _ Es)
    as (rs & row & -> & Hev & Hp & Hd & Ht & _).
  split.
  - exists row. repeat split; auto.
    vm_compute in Ht. now inversion Ht.
  - intro w''. apply pr_info_repository in Ei.
    unfold handle_pull_request_event, wrap, bind, lift, pr_info_of.
    rewrite Ei. cbn [rbind py_getitem]. eexists. reflexivity.
Qed.


Lemma set_processed_fixed (e : event) : processed e = true -> set_processed e = e.
Proof. destruct e; simpl; intro H; subst; reflexivity. Qed.

Lemma events_kept_refl (w : world) : events_kept w w.
Proof. intros e H. now left. Qed.

Lemma events_kept_trans (w1 w2 w3 : world) :
  events_kept w1 w2 -> events_kept w2 w3 -> events_kept w1 w3.
Proof.
  intros H12 H23 e Hin. destruct (H12 e Hin) as [H|[Hp H]].
  - exact (H23 e H).
  - destruct (H23 _ H) as [H'|[Hp' _]]; [right; auto|discriminate].
Qed.

Lemma events_kept_app (w w' : world) (extra : list event) :
  github_events w' = github_events w ++ extra -> events_kept w w'.
Proof. intros H e Hin. left. rewrite H. apply in_or_app. now left. Qed.

Lemma mark_event_processed_kept (i : Z) (w w' : world) (r : res unit) :
  mark_event_processed i w = (r, w') -> r = Ok tt /\ events_kept w w'.
Proof.
  unfold mark_event_processed, transaction. intro H. inversion H; subst.
  split; [reflexivity|]. intros e Hin. simpl.
  destruct (ev_id e =? i)%Z eqn:E.
  - destruct (processed e) eqn:Ep.
    + left. apply in_map_iff. exists e. rewrite E.
      split; [now apply set_processed_fixed|exact Hin].
    + right. split; [reflexivity|]. apply in_map_iff. exists e. now rewrite E.
  - left. apply in_map_iff. exists e. now rewrite E.
Qed.

Lemma replay_handle_kept (e : event) (acc : list pyval) (w w' : world)
    (r : res (list pyval)) :
  replay_handle X e acc w = (r, w') -> events_kept w w'.
Proof.
  unfold replay_handle, bind, ret.
  destruct (String.eqb (event_type e) "push").
  - destruct (handle_push_event X (event_data e) w) as [[o|e0] w1] eqn:E;
      apply handle_push_event_events in E;
      intro H; inversion H; subst;
      apply (events_kept_app _ _ []); now rewrite app_nil_r.
  - destruct (String.eqb (event_type e) "pull_request").
    + destruct (handle_pull_request_event (event_data e) w) as [[o|e0] w1] eqn:E;
        apply handle_pull_request_event_appends in E; destruct E as [extra E];
        intro H; inversion H; subst; now apply (events_kept_app _ _ extra).
    + intro H; inversion H; subst. apply events_kept_refl.
Qed.

(** One iteration never raises, whatever the event. *)
Lemma replay_event_contained (e : event) (acc : list pyval) (w : world) :
  exists r w', replay_event X e acc w = (Ok r, w') /\ events_kept w w'.
Proof.
  unfold replay_event, bind, try_except, ret.
  destruct (replay_handle X e acc w) as [[r|e0] w1] eqn:E;
    apply replay_handle_kept in E.
  - destruct (mark_event_processed (ev_id e) w1) as [m w2] eqn:Em.
    destruct (mark_event_processed_kept _ _ _ _ Em) as [-> Hk].
    exists r, w2. split; [reflexivity|]. eapply events_kept_trans; eassumption.
  - exists acc, w1. auto.
Qed.

Lemma replay_events_contained (events : list event) (acc : list pyval) (w : world) :
  exists r w', replay_events X events acc w = (Ok r, w') /\ events_kept w w'.
Proof.
  revert acc w. induction events as [|e events IH]; intros acc w; simpl.
  - exists acc, w. split; [reflexivity|apply events_kept_refl].
  - unfold bind.
    destruct (replay_event_contained e acc w) as (r & w1 & -> & Hk1).
    destruct (IH r w1) as (r' & w2 & -> & Hk2).
    exists r', w2. split; [reflexivity|]. eapply events_kept_trans; eassumption.
Qed.

(** X12.  [process_unprocessed_events] never raises, whatever the events
    hold: a failure while one event is replayed is contained in its
    iteration.  It removes no event row and resets no processed flag:
    every row is still there afterwards, as it was or marked processed. *)
Theorem process_unprocessed_events_never_raises :
  forall w : world,
    exists r w',
      process_unprocessed_events X w = (Ok r, w') /\ events_kept w w'.
Proof.
  intro w. unfold process_unprocessed_events, wrap, bind.
  unfold get_unprocessed_github_events, transaction.
  destruct (replay_events_contained
              (order_by_asc ev_timestamp
                 (filter (fun e => negb (processed e)) (github_events w))) [] w)
    as (r & w' & Hr & Hk).
  exists r, w'. rewrite Hr. auto.
Qed.






End EventRows.

Lemma pull_request_summary_witness :
  exists row,
    Services.github_events
      (snd (WebhookHandler.handle_pull_request_event MoreExamples.pr_event
              Examples.empty)) = [row] /\
    Services.processed row = false.
Proof.
  destruct (WebhookHandler.handle_pull_request_event MoreExamples.pr_event
              Examples.empty) as [[info|e] w'] eqn:E;
    [|vm_compute in E; discriminate E].
  destruct (pull_request_summary_row_cannot_be_replayed MoreExamples.pr_event info
              Examples.empty w' E) as [(row & Hev & Hp & _) _].
  exists row. simpl. rewrite Hev. auto.
Defined.


(* --------------------------------------------------------------------- *)
(** *** Saving and finding commits in the hash-keyed store *)

Section SaveAndFind.

Import Services.

Lemma text_param_text (v : pyval) (s : string) :
  text_param v = Ok (Some s) -> v = PStr s.
Proof. destruct v; simpl; intro H; now inversion H. Qed.

Lemma not_null_some {A} (column : string) (o : option A) (x : A) :
  not_null column o = Ok x -> o = Some x.
Proof. destruct o; simpl; intro H; now inversion H. Qed.

(** The columns of the proposed row, read back to the parameters. *)
Lemma proposed_commit_fields (p : commit_params) (n t : Z) (new : commit) :
  proposed_commit p n t = Ok new ->
  exists h a,
    p_commit_hash p = PStr h /\ varchar 40 h = Ok (commit_hash new) /\
    p_author p = PStr a /\ varchar 255 a = Ok (author new) /\
    p_message p = PStr (message new) /\
    id new = n /\ timestamp_logged new = t /\
    changed_files new = p_changed_files p /\ metadata new = p_metadata p.
Proof.
  unfold proposed_commit. intro H.
  destruct (text_param (p_commit_hash p)) as [h0|] eqn:E1; cbn [rbind] in H; [|discriminate].
  destruct (text_param (p_author p)) as [a0|] eqn:E2; cbn [rbind] in H; [|discriminate].
  destruct (text_param (p_message p)) as [m0|] eqn:E3; cbn [rbind] in H; [|discriminate].
  destruct (timestamp_param (p_timestamp_commit p)) as [t0|] eqn:E4; cbn [rbind] in H;
    [|discriminate].
  destruct (text_param (p_branch p)) as [b0|] eqn:E5; cbn [rbind] in H; [|discriminate].
  destruct (text_param (p_repository_path p)) as [rp|] eqn:E6; cbn [rbind] in H;
    [|discriminate].
  destruct (not_null "commit_hash" h0) as [h1|] eqn:E7; cbn [rbind] in H; [|discriminate].
  destruct (varchar 40 h1) as [h|] eqn:E8; cbn [rbind] in H; [|discriminate].
  destruct (not_null "author" a0) as [a1|] eqn:E9; cbn [rbind] in H; [|discriminate].
  destruct (varchar 255 a1) as [a|] eqn:E10; cbn [rbind] in H; [|discriminate].
  destruct (not_null "message" m0) as [m|] eqn:E11; cbn [rbind] in H; [|discriminate].
  destruct (not_null "timestamp_commit" t0) as [t1|] eqn:E12; cbn [rbind] in H;
    [|discriminate].
  destruct (varchar_opt 255 b0) as [b|] eqn:E13; cbn [rbind] in H; [|discriminate].
  inversion H; subst. clear H. simpl.
  apply not_null_some in E7, E9, E11. subst.
  apply text_param_text in E1, E2, E3.
  exists h1, a1. repeat split; auto.
Qed.

(** The parameters, read back to the dictionary. *)
Lemma commit_params_fields (d : pyval) (p : commit_params) :
  commit_params_of d = Ok p ->
  py_getitem d "commit_hash" = Ok (p_commit_hash p) /\
  py_getitem d "author" = Ok (p_author p) /\
  py_getitem d "message" = Ok (p_message p) /\
  py_getitem d "timestamp_commit" = Ok (p_timestamp_commit p).
Proof.
  unfold commit_params_of. intro H.
  destruct (py_getitem d "commit_hash") as [h|]; cbn [rbind] in H; [|discriminate].
  destruct (py_getitem d "author") as [a|]; cbn [rbind] in H; [|discriminate].
  destruct (py_getitem d "message") as [m|]; cbn [rbind] in H; [|discriminate].
  destruct (py_getitem d "timestamp_commit") as [t|]; cbn [rbind] in H; [|discriminate].
  repeat match type of H with
         | rbind ?x _ = _ => destruct x; cbn [rbind] in H; try discriminate
         end.
  inversion H; subst. repeat split.
Qed.

(** The row the upsert leaves for the hash, and the id it returns. *)
Lemma upsert_spec (new : commit) (rows : list commit) :
  let this := fun r => String.eqb (commit_hash r) (commit_hash new) in
  exists c,
    find this (fst (upsert new rows)) = Some c /\
    id c = snd (upsert new rows) /\
    match find this rows with
    | Some r => c = overwrite r new /\
                List.length (fst (upsert new rows)) = List.length rows
    | None => c = new /\
              List.length (fst (upsert new rows)) = S (List.length rows)
    end.
Proof.
  intro this. unfold this. induction rows as [|r rows IH]; simpl.
  - exists new. rewrite String.eqb_refl. auto.
  - destruct (String.eqb (commit_hash r) (commit_hash new)) eqn:E; simpl.
    + exists (overwrite r new). simpl. rewrite E. auto.
    + destruct (upsert new rows) as [rows' i]. simpl in *.
      rewrite E. destruct IH as (c & Hc & Hid & Hm). exists c.
      repeat split; auto.
      destruct (find _ rows); destruct Hm as [-> Hl]; split; auto; now rewrite Hl.
Qed.

(** X14.  [save_commit] is an upsert on the hash, and what it saved is what
    [get_commit_by_hash] then returns: the row found under the stored hash
    has the returned id and the author and message of the dictionary.
    When the hash was stored, the row keeps its id and its logging time and
    the number of rows is unchanged (the new values win); otherwise one row
    is added, under the next id of the sequence. *)
Theorem saved_commit_is_found_by_its_hash :
  forall (d : pyval) (w w' : world) (i : Z),
    save_commit d w = (Ok i, w') ->
    exists (c : commit) (h a : string),
      py_getitem d "commit_hash" = Ok (PStr h) /\
      varchar 40 h = Ok (commit_hash c) /\
      get_commit_by_hash (PStr (commit_hash c)) w' = (Ok (Some c), w') /\
      id c = i /\
      py_getitem d "author" = Ok (PStr a) /\ varchar 255 a = Ok (author c) /\
      py_getitem d "message" = Ok (PStr (message c)) /\
      match fst (get_commit_by_hash (PStr (commit_hash c)) w) with
      | Ok (Some r) =>
          id c = id r /\ timestamp_logged c = timestamp_logged r /\
          List.length (commits w') = List.length (commits w)
      | _ =>
          id c = (commits_seq w + 1)%Z /\
          List.length (commits w') = S (List.length (commits w))
      end.
Proof.
  intros d w w' i H.
  destruct (save_commit_inv _ _ _ _ H) as (p & new & Hp & Hn & Hc & Hi).
  destruct (proposed_commit_fields _ _ _ _ Hn)
    as (h & a & Hh & Hvh & Ha & Hva & Hm & Hid & _).
  destruct (commit_params_fields _ _ Hp) as (Dh & Da & Dm & _).
  destruct (upsert_spec new (commits w)) as (c & Hf & Hci & Hcase).
  assert (commit_hash c = commit_hash new /\ author c = author new /\
          message c = message new) as (Ech & Eca & Ecm).
  { destruct (find _ (commits w)) as [r|] eqn:F; destruct Hcase as [-> _].
    - apply find_some in F. destruct F as [_ F]. apply String.eqb_eq in F.
      simpl. auto.
    - auto. }
  exists c, h, a. rewrite !get_commit_by_hash_text. cbn [fst].
  rewrite Hc, Ech, Eca, Ecm.
  repeat split; try congruence.
  destruct (find _ (commits w)) as [r|]; destruct Hcase as [-> Hl].
  - simpl. auto.
  - split; [exact Hid|exact Hl].
Qed.

(** X15.  [save_commit] raises, and leaves the database as it was, when the
    dictionary lacks [commit_hash], [author], [message] or
    [timestamp_commit] (the other keys are optional), or is no dictionary
    at all. *)
Theorem save_commit_requires_its_four_keys :
  forall (d : pyval) (k : string) (e : exn) (w : world),
    In k ["commit_hash"; "author"; "message"; "timestamp_commit"] ->
    py_getitem d k = Raise e ->
    exists cause,
      save_commit d w = (Raise (DataStorageError "Failed to save commit" cause), w).
Proof.
  intros d k e w Hk He. unfold save_commit, transaction.
  destruct (commit_params_of d) as [p|cause] eqn:Ep; cbn [rbind].
  - exfalso. destruct (commit_params_fields _ _ Ep) as (H1 & H2 & H3 & H4).
    simpl in Hk. destruct Hk as [<-|[<-|[<-|[<-|[]]]]]; congruence.
  - eexists. reflexivity.
Qed.

End SaveAndFind.

Lemma saved_commit_witness :
  exists c,
    fst (Services.get_commit_by_hash (PStr "deadbeef")
           (snd (Services.save_commit
                   (Examples.commit_for "deadbeef" PNone "Ada" "x/r1") Examples.empty)))
    = Ok (Some c) /\ Services.id c = 1%Z.
Proof.
  destruct (Services.save_commit (Examples.commit_for "deadbeef" PNone "Ada" "x/r1")
              Examples.empty) as [[i|e] w'] eqn:E;
    [|vm_compute in E; discriminate E].
  destruct (saved_commit_is_found_by_its_hash _ _ _ _ E)
    as (c & h & a & Hh & Hv & Hg & Hi & _).
  exists c. cbn [snd].
  assert (Services.commit_hash c = "deadbeef") as Hc.
  { vm_compute in Hh. inversion Hh; subst h. vm_compute in Hv. now inversion Hv. }
  rewrite Hc in Hg. rewrite Hg. split; [reflexivity|].
  rewrite Hi. vm_compute in E. now inversion E.
Defined.

Lemma save_commit_requires_witness :
  exists cause,
    Services.save_commit (PDict [("commit_hash", PStr "deadbeef")]) Examples.empty
    = (Raise (DataStorageError "Failed to save commit" cause), Examples.empty).
Proof.
  apply (save_commit_requires_its_four_keys (PDict [("commit_hash", PStr "deadbeef")])
           "author" (KeyError "author") Examples.empty).
  - right. left. reflexivity.
  - reflexivity.
Defined.

(* --------------------------------------------------------------------- *)
(** *** More on the dispatch *)

Section MoreDispatch.

Import Services AgentOrchestrator.
Variable X : externals.
Variable B : backends.

(** X16.  A reconciliation pass over the unanalyzed commits returns the
    empty list and leaves the database as it was, whatever the backends
    answer: a fetched row either fails to be rebuilt into [commit_data]
    or carries the [datetime] of its timestamp, which cannot be
    serialised into an interaction.  The same commits are therefore
    fetched again at the next pass. *)
Theorem reconciliation_pass_records_nothing :
  forall w : world,
    process_unanalyzed_commits X B w = (Ok [], w) /\
    unanalyzed_commits (snd (process_unanalyzed_commits X B w)) = unanalyzed_commits w.
Proof.
  intro w. rewrite process_unanalyzed_commits_records_nothing. split; reflexivity.
Qed.

(** X17.  When the interactions can be written (the commit id is stored,
    [commit_data] and the analysis serialise), a first backend that raises
    and a second one that answers leave exactly two new interaction rows,
    [code_llama]/[failed] and then [ollama]/[completed], and the call
    returns the entry of the second backend only. *)
Theorem backends_are_isolated_when_rows_can_be_written :
  forall (cid : Z) (commit_data changed analysis : pyval) (e : exn) (w : world),
    references_commit (commits w) cid = true ->
    json_serializable commit_data = true ->
    json_serializable analysis = true ->
    py_get commit_data "changed_files" (PList []) = Ok changed ->
    analyze_commit_with_code_llama B w commit_data changed = Raise e ->
    (forall w', analyze_commit_with_ollama B w' commit_data = Ok analysis) ->
    fst (process_commit_with_agents B cid commit_data w)
    = Ok [result_entry (agent_interactions_seq w + 2) "ollama" analysis] /\
    map (fun ai => (commit_id ai, agent_type ai, status ai))
        (agent_interactions (snd (process_commit_with_agents B cid commit_data w)))
    = map (fun ai => (commit_id ai, agent_type ai, status ai)) (agent_interactions w)
      ++ [(Some cid, "code_llama", Some "failed");
          (Some cid, "ollama", Some "completed")].
Proof.
  intros cid commit_data changed analysis e w Href Hd Ha Hcf Hfail Hok.
  pose proof (isolation_when_recordable B cid commit_data changed analysis e w
                Href Hd Ha Hcf Hfail Hok) as H.
  destruct (process_commit_with_agents B cid commit_data w) as [r w']. exact H.
Qed.



End MoreDispatch.

Lemma backends_are_isolated_witness :
  map (fun ai => (Services.agent_type ai, Services.status ai))
      (Services.agent_interactions
         (snd (AgentOrchestrator.process_commit_with_agents Examples.B0 1
                 Examples.dispatched_text Examples.one_pending)))
  = [("code_llama", Some "failed"); ("ollama", Some "completed")].
Proof.
  destruct (backends_are_isolated_when_rows_can_be_written Examples.B0 1
              Examples.dispatched_text (PList [])
              (PDict [("agent_type", PStr "ollama");
                      ("analysis_type", PStr "commit_patterns");
                      ("analysis", PStr "looks fine")])
              (DataStorageError "Failed to analyze commit with Code Llama"
                 (DataStorageError "Ollama is not running" (BackendError "")))
              Examples.one_pending) as [_ H].
  - reflexivity.
  - reflexivity.
  - reflexivity.
  - reflexivity.
  - reflexivity.
  - intro w'. reflexivity.
  - apply (f_equal (map (fun t => (snd (fst t), snd t)))) in H.
    rewrite map_map in H. exact H.
Defined.


(* --------------------------------------------------------------------- *)
(** *** The queries of the hash-keyed store *)

Section Queries.

Import Services ServicesQueries.

Lemma sorted_firstn_skipn {A} (R : A -> A -> Prop) (l : list A) (n : nat) :
  StronglySorted R l ->
  forall x y, In x (firstn n l) -> In y (skipn n l) -> R x y.
Proof.
  intro Hs. revert n. induction Hs as [|a l Hs IH Hall]; intros n x y Hx Hy.
  - destruct n; contradiction.
  - destruct n as [|n]; simpl in *; [contradiction|].
    destruct Hx as [->|Hx].
    + rewrite Forall_forall in Hall. apply Hall.
      rewrite <- (firstn_skipn n l). apply in_or_app. now right.
    + eapply IH; eassumption.
Qed.

Lemma sorted_firstn {A} (R : A -> A -> Prop) (l : list A) (n : nat) :
  Sorted R l -> Sorted R (firstn n l).
Proof.
  intro Hs. revert n. induction Hs as [|a l Hs IH Hhd]; intro n.
  - destruct n; constructor.
  - destruct n as [|n]; simpl; [constructor|].
    constructor; [apply IH|].
    destruct Hhd; destruct n; simpl; constructor. assumption.
Qed.

Lemma order_by_desc_strongly_sorted {A} (key : A -> Z) (l : list A) :
  StronglySorted (fun a b => (key b <= key a)%Z) (order_by_desc key l).
Proof.
  apply Sorted_StronglySorted.
  - intros a b c Hab Hbc. lia.
  - apply order_by_desc_sorted.
Qed.

(** X19.  [get_recent_commits(limit)] raises for a negative limit.
    Otherwise it returns stored commits, newest first, as many as the
    limit allows, and they are the newest ones: no stored commit that is
    left out is newer than a listed one. *)
Theorem recent_commits_are_the_newest :
  forall (limit : Z) (w : world),
    ((limit < 0)%Z ->
     exists e, get_recent_commits limit w
               = (Raise (DataStorageError "Failed to get recent commits" e), w)) /\
    ((0 <= limit)%Z ->
     exists l,
       get_recent_commits limit w = (Ok l, w) /\
       List.length l = Nat.min (Z.to_nat limit) (List.length (commits w)) /\
       Sorted (fun a b => (timestamp_commit b <= timestamp_commit a)%Z) l /\
       (forall c, In c l -> In c (commits w)) /\
       (forall c c', In c l -> In c' (commits w) -> ~ In c' l ->
                     (timestamp_commit c' <= timestamp_commit c)%Z)).
Proof.
  intros limit w. unfold get_recent_commits, transaction. split; intro Hl.
  - apply Z.ltb_lt in Hl. rewrite Hl. eexists. reflexivity.
  - assert ((limit <? 0)%Z = false) as -> by (apply Z.ltb_ge; lia).
    eexists. split; [reflexivity|].
    set (s := order_by_desc timestamp_commit (commits w)).
    pose proof (order_by_desc_strongly_sorted timestamp_commit (commits w)) as Hs.
    fold s in Hs. repeat split.
    + rewrite length_firstn. f_equal. unfold s, order_by_desc.
      symmetry. apply Permutation_length. apply sort_by_perm.
    + apply sorted_firstn. apply order_by_desc_sorted.
    + intros c Hc. apply in_firstn in Hc. now apply order_by_desc_In in Hc.
    + intros c c' Hc Hc' Hn.
      apply (sorted_firstn_skipn _ s (Z.to_nat limit) Hs c c' Hc).
      apply (order_by_desc_In timestamp_commit) in Hc'. fold s in Hc'.
      rewrite <- (firstn_skipn (Z.to_nat limit) s) in Hc'.
      apply in_app_or in Hc'. destruct Hc' as [H|H]; [contradiction|exact H].
Qed.

Lemma nodup_length_le {A} (dec : forall x y : A, {x = y} + {x <> y}) (l : list A) :
  (List.length (nodup dec l) <= List.length l)%nat.
Proof.
  induction l as [|a l IH]; simpl; [lia|].
  destruct (in_dec dec a l); simpl; lia.
Qed.

(** X20.  The counts of [get_statistics] agree with the tables: the number
    of unprocessed events is the length of the list
    [get_unprocessed_github_events] returns, the number of authors is at
    most the number of commits and is zero only when there is no commit,
    and the call changes nothing. *)
Theorem statistics_agree_with_the_tables :
  forall w : world,
    exists s l,
      get_statistics w = (Ok s, w) /\
      get_unprocessed_github_events w = (Ok l, w) /\
      unprocessed_events s = Z.of_nat (List.length l) /\
      total_commits s = Z.of_nat (List.length (commits w)) /\
      (0 <= unique_authors s <= total_commits s)%Z /\
      (unique_authors s = 0%Z <-> commits w = []).
Proof.
  intro w. eexists. eexists. split; [reflexivity|]. split; [reflexivity|]. simpl.
  split; [|split; [reflexivity|split]].
  - f_equal. unfold order_by_asc. apply Permutation_length. apply sort_by_perm.
  - pose proof (nodup_length_le string_dec (map author (commits w))) as H.
    rewrite length_map in H. lia.
  - split.
    + intro H. destruct (commits w) as [|c l]; [reflexivity|].
      exfalso.
      assert (In (author c) (nodup string_dec (map author (c :: l)))) as Hin
        by (apply nodup_In; now left).
      destruct (nodup string_dec (map author (c :: l))); [contradiction|].
      simpl in H. lia.
    + intros ->. reflexivity.
Qed.

End Queries.

Lemma recent_commits_witness :
  exists l,
    ServicesQueries.get_recent_commits 1 Examples.two_pending
    = (Ok l, Examples.two_pending) /\
    List.length l
    = Nat.min (Z.to_nat 1) (List.length (Services.commits Examples.two_pending)) /\
    Sorted (fun a b => (Services.timestamp_commit b <= Services.timestamp_commit a)%Z) l /\
    (forall c, In c l -> In c (Services.commits Examples.two_pending)) /\
    (forall c c', In c l -> In c' (Services.commits Examples.two_pending) ->
                  ~ In c' l ->
                  (Services.timestamp_commit c' <= Services.timestamp_commit c)%Z).
Proof.
  apply (proj2 (recent_commits_are_the_newest 1 Examples.two_pending)). lia.
Defined.

(* ===================================================================== *)
(** ** Further properties of the repository-aware store *)
(* ===================================================================== *)

Section NullRepository.

Import Legacy.

Lemma upsert_without_repository (new : commit) (rows : list commit) :
  repository_id new = None -> upsert new rows = (rows ++ [new], id new).
Proof.
  intro H. induction rows as [|r rows IH]; simpl; [reflexivity|].
  unfold same_key at 1. rewrite H.
  destruct (repository_id r); rewrite andb_false_r; now rewrite IH.
Qed.

Lemma legacy_proposed_commit_again (p : commit_params) (n t n' t' : Z) (new : commit) :
  proposed_commit p n t = Ok new ->
  id new = n /\
  exists new', proposed_commit p n' t' = Ok new' /\
               id new' = n' /\
               commit_hash new' = commit_hash new /\
               repository_id new' = repository_id new.
Proof.
  unfold proposed_commit. intro H.
  repeat match type of H with
         | rbind ?x _ = _ => destruct x; cbn [rbind] in *; try discriminate
         end.
  inversion H; subst. simpl. split; [reflexivity|].
  eexists. split; [reflexivity|]. simpl. auto.
Qed.

(** X21.  A commit saved without repository id is never merged with a
    stored one: [save_commit] appends a new row under the next id, so
    saving the same dictionary twice stores the commit twice, with the
    same hash and no repository. *)
Theorem commits_without_repository_are_stored_again :
  forall (d : pyval) (w w1 : world) (i : Z),
    py_get d "repository_id" PNone = Ok PNone ->
    save_commit d w = (Ok i, w1) ->
    exists (c1 c2 : commit) (w2 : world),
      commits w1 = commits w ++ [c1] /\ id c1 = i /\ i = (commits_seq w + 1)%Z /\
      save_commit d w1 = (Ok (i + 1)%Z, w2) /\
      commits w2 = commits w ++ [c1; c2] /\
      id c2 = (i + 1)%Z /\
      commit_hash c2 = commit_hash c1 /\
      repository_id c1 = None /\ repository_id c2 = None.
Proof.
  intros d w w1 i Hd H.
  pose proof H as H0.
  unfold save_commit, transaction, insert_commit in H.
  destruct (commit_params_of d) as [p|] eqn:Ep; cbn [rbind] in H; [|discriminate].
  destruct (proposed_commit p (commits_seq w + 1) (current_time w)) as [new|] eqn:En;
    cbn [rbind] in H; [|discriminate].
  destruct (commit_params_key _ _ Ep) as [_ Hri]. rewrite Hd in Hri.
  inversion Hri as [Hp]. clear Hri.
  destruct (proposed_commit_key _ _ _ _ En) as [_ Hnone].
  rewrite <- Hp in Hnone. simpl in Hnone. inversion Hnone as [Hnew]. clear Hnone.
  symmetry in Hnew.
  rewrite Hnew in H. simpl in H.
  rewrite (upsert_without_repository new (commits w) Hnew) in H.
  inversion H; subst. clear H.
  destruct (legacy_proposed_commit_again p _ _
              (commits_seq w + 1 + 1)%Z
              (clock w (S (ticks w))) new En)
    as (Hid & new' & En' & Hid' & Hh' & Hr').
  rewrite Hnew in Hr'.
  exists new, new'. eexists.
  split; [reflexivity|]. split; [reflexivity|]. split; [exact Hid|].
  split.
  - unfold save_commit, transaction, insert_commit. rewrite Ep. cbn [rbind].
    cbn [commits_seq set_commits current_time clock ticks].
    rewrite En'. cbn [rbind]. rewrite Hr'. simpl.
    rewrite (upsert_without_repository new' _ Hr').
    rewrite Hid', Hid. reflexivity.
  - simpl. rewrite <- app_assoc. simpl. rewrite Hid', Hid. auto.
Qed.

End NullRepository.

Lemma commits_without_repository_witness :
  let d := Examples.commit_for "deadbeef" PNone "Ada" "r1" in
  let w := Examples.two_repositories in
  let w1 := snd (Legacy.save_commit d w) in
  exists (c1 c2 : Legacy.commit) (w2 : Legacy.world),
    Legacy.commits w1 = Legacy.commits w ++ [c1] /\ Legacy.id c1 = 1%Z /\
    1%Z = (Legacy.commits_seq w + 1)%Z /\
    Legacy.save_commit d w1 = (Ok (1 + 1)%Z, w2) /\
    Legacy.commits w2 = Legacy.commits w ++ [c1; c2] /\
    Legacy.id c2 = (1 + 1)%Z /\
    Legacy.commit_hash c2 = Legacy.commit_hash c1 /\
    Legacy.repository_id c1 = None /\ Legacy.repository_id c2 = None.
Proof.
  intros d w w1.
  apply (commits_without_repository_are_stored_again d w w1 1%Z).
  - reflexivity.
  - vm_compute. reflexivity.
Defined.

Section Maintenance.

Import Legacy LegacyMaintenance RepositoryManager.

Lemma fixed_names_not_null (n : string) (rows : list commit) :
  filter name_is_null
    (map (fun c => if name_is_null c then set_repository_name n c else c) rows) = [].
Proof.
  induction rows as [|c rows IH]; simpl; [reflexivity|].
  destruct (name_is_null c) eqn:E; simpl; [exact IH|].
  rewrite E. exact IH.
Qed.

Lemma fix_is_identity_without_nulls (n : string) (rows : list commit) :
  filter name_is_null rows = [] ->
  map (fun c => if name_is_null c then set_repository_name n c else c) rows = rows.
Proof.
  induction rows as [|c rows IH]; simpl; [reflexivity|].
  destruct (name_is_null c) eqn:E; [discriminate|].
  intro H. now rewrite IH.
Qed.

(** X22.  [fix_null_repository_names] returns the number of commits without
    a repository name and gives each of them the default name; it changes
    no other column and no other commit, so that afterwards no commit is
    without a name and a second call returns 0 and changes nothing. *)
Theorem fix_null_repository_names_names_every_commit :
  forall (default_repo_name : string) (w : world),
    exists w',
      fix_null_repository_names default_repo_name w
      = (Ok (Z.of_nat (List.length (filter name_is_null (commits w)))), w') /\
      (forall c, In c (commits w') -> repository_name c <> None) /\
      (forall c, In c (commits w) -> repository_name c <> None -> In c (commits w')) /\
      (forall c, In c (commits w) -> repository_name c = None ->
                 In (set_repository_name default_repo_name c) (commits w')) /\
      map (fun c => (id c, commit_hash c, repository_id c)) (commits w')
      = map (fun c => (id c, commit_hash c, repository_id c)) (commits w) /\
      repositories w' = repositories w /\
      fix_null_repository_names default_repo_name w' = (Ok 0%Z, w').
Proof.
  intros n w. eexists. split; [reflexivity|]. simpl. repeat split.
  - intros c Hin Hnull.
    assert (In c (filter name_is_null
                    (map (fun c => if name_is_null c
                                   then set_repository_name n c else c) (commits w)))).
    { apply filter_In. split; [exact Hin|]. unfold name_is_null. now rewrite Hnull. }
    now rewrite fixed_names_not_null in H.
  - intros c Hin Hname. apply in_map_iff. exists c. split; [|exact Hin].
    unfold name_is_null. destruct (repository_name c); [reflexivity|congruence].
  - intros c Hin Hname. apply in_map_iff. exists c. split; [|exact Hin].
    unfold name_is_null. now rewrite Hname.
  - rewrite map_map. apply map_ext. intro c. now destruct (name_is_null c).
  - unfold fix_null_repository_names, transaction. simpl.
    rewrite fixed_names_not_null. simpl.
    rewrite (fix_is_identity_without_nulls n _ (fixed_names_not_null n (commits w))).
    reflexivity.
Qed.

Lemma filter_map_length {A B} (f : B -> bool) (g : A -> B) (l : list A) :
  List.length (filter f (map g l)) = List.length (filter (fun x => f (g x)) l).
Proof.
  induction l as [|a l IH]; simpl; [reflexivity|].
  destruct (f (g a)); simpl; now rewrite IH.
Qed.

(** X23.  After [fix_null_repository_names] with its default name
    [Practice_Repo], the commits that had no name are no longer counted by
    the statistics of the repository manager: its total is the number of
    commits that had a name and referred to [Practice_Repo] neither through
    the name nor through the linked repository. *)
Theorem commits_named_by_default_leave_the_statistics :
  forall w : world,
    let w' := snd (fix_null_repository_names "Practice_Repo" w) in
    total_commits (statistics_of w')
    = Z.of_nat (List.length
        (filter (fun j => negb (name_is_null (fst j)) &&
                          negb (is_practice (r_name j) || is_practice (c_name j)))
                (joined w))).
Proof.
  intro w. simpl. unfold joined. simpl. f_equal.
  rewrite !map_map. rewrite !filter_map_length.
  f_equal. apply filter_ext. intro c.
  rewrite not_practice_holds. unfold r_name, c_name, repository_of, name_is_null.
  cbn [fst snd set_repository_name repository_name repository_id
       repositories set_commits].
  destruct (repository_name c) as [n|] eqn:En;
    cbn [fst snd set_repository_name repository_name repository_id
         repositories set_commits negb andb];
    rewrite ?En.
  - reflexivity.
  - unfold is_practice at 2. simpl. rewrite orb_true_r. reflexivity.
Qed.

Lemma count_in_filter (l : list string) (a : string) (l' : list string) :
  ~ In a l ->
  List.length (filter (fun x => if in_dec string_dec x (a :: l) then true else false) l')
  = (count_occ string_dec l' a
     + List.length (filter (fun x => if in_dec string_dec x l then true else false) l'))%nat.
Proof.
  intro Hn. induction l' as [|x l' IH]; [reflexivity|].
  cbn [filter count_occ].
  destruct (in_dec string_dec x (a :: l)) as [Hi|Hi];
    destruct (string_dec x a) as [He|He];
    destruct (in_dec string_dec x l) as [Hl|Hl];
    cbn [List.length]; rewrite ?IH; try lia; exfalso; subst;
    simpl in *; intuition congruence.
Qed.

Lemma counts_of_distinct_names (l l' : list string) :
  fold_right (fun n acc => (count_occ string_dec l' n + acc)%nat) 0%nat
             (nodup string_dec l)
  = List.length (filter (fun x => if in_dec string_dec x l then true else false) l').
Proof.
  induction l as [|a l IH]; cbn [nodup].
  - induction l' as [|x l' IH']; [reflexivity|].
    cbn [filter]. destruct (in_dec string_dec x []) as [[]|_]. exact IH'.
  - destruct (in_dec string_dec a l) as [Hin|Hn].
    + rewrite IH. f_equal. apply filter_ext. intro x.
      destruct (in_dec string_dec x (a :: l)) as [Hi|Hi];
        destruct (in_dec string_dec x l) as [Hl|Hl];
        try reflexivity; exfalso; simpl in *; intuition (subst; contradiction).
    + cbn [fold_right]. rewrite IH.
      now rewrite (count_in_filter l a l' Hn).
Qed.

Lemma names_and_nulls (rows : list commit) :
  (List.length (names_of rows) + List.length (filter name_is_null rows))%nat
  = List.length rows.
Proof.
  induction rows as [|c rows IH]; simpl; [reflexivity|].
  unfold name_is_null at 1. destruct (repository_name c); simpl; lia.
Qed.

Lemma sum_counts_map (l : list string) (names : list string) :
  fold_right Z.add 0%Z
    (map snd (map (fun n => (n, Z.of_nat (count_occ string_dec names n))) l))
  = Z.of_nat (fold_right (fun n acc => (count_occ string_dec names n + acc)%nat) 0%nat l).
Proof.
  induction l as [|a l IH]; simpl; [reflexivity|]. rewrite IH. lia.
Qed.

Lemma sum_permutation (l l' : list Z) :
  Permutation l l' -> fold_right Z.add 0%Z l = fold_right Z.add 0%Z l'.
Proof.
  induction 1; simpl; lia.
Qed.

(** X24.  The statistics by repository name count every commit exactly
    once: the counts of the groups and the count of the commits without a
    name add up to the number of commits; each group has a distinct name
    and at least one commit, and the groups come largest first. *)
Theorem repository_counts_add_up :
  forall w : world,
    let s := repository_statistics_of w in
    (fold_right Z.add 0 (map snd (repository_stats s)) + null_repository_count s
     = Z.of_nat (List.length (commits w)))%Z /\
    NoDup (map fst (repository_stats s)) /\
    (forall n k, In (n, k) (repository_stats s) -> (1 <= k)%Z) /\
    Sorted (fun a b => (snd b <= snd a)%Z) (repository_stats s) /\
    LegacyMaintenance.total_repositories s = Z.of_nat (List.length (repository_stats s)).
Proof.
  intro w. cbv zeta. unfold repository_statistics_of. simpl.
  set (names := names_of (commits w)).
  set (groups := map (fun n => (n, Z.of_nat (count_occ string_dec names n)))
                     (nodup string_dec names)).
  assert (Permutation groups (order_by_desc snd groups)) as Hperm
    by apply sort_by_perm.
  repeat split.
  - rewrite <- (sum_permutation _ _ (Permutation_map snd Hperm)).
    unfold groups. rewrite sum_counts_map, counts_of_distinct_names.
    rewrite <- (names_and_nulls (commits w)). fold names.
    rewrite Nat2Z.inj_add. f_equal. f_equal.
    rewrite (filter_ext_in _ (fun _ => true)).
    + clear. induction names; simpl; congruence.
    + intros x Hx. destruct (in_dec string_dec x names); [reflexivity|contradiction].
  - eapply Permutation_NoDup; [apply Permutation_map; exact Hperm|].
    unfold groups. rewrite map_map. simpl. rewrite map_id. apply NoDup_nodup.
  - intros n k Hin. apply order_by_desc_In in Hin. unfold groups in Hin.
    apply in_map_iff in Hin. destruct Hin as [m [Heq Hm]]. inversion Heq; subst.
    apply nodup_In in Hm. apply (count_occ_In string_dec) in Hm. lia.
  - apply order_by_desc_sorted.
Qed.

End Maintenance.

Section Lookup.

Import Legacy RepositoryManager RepositoryLookup.

Lemma find_ext_in {A} (f g : A -> bool) (l : list A) :
  (forall x, In x l -> f x = g x) -> find f l = find g l.
Proof.
  induction l as [|a l IH]; simpl; intro H; [reflexivity|].
  rewrite (H a (or_introl eq_refl)). destruct (g a); [reflexivity|].
  apply IH. intros x Hx. apply H. now right.
Qed.

Lemma upsert_repository_rows (on_conflict : repository -> repository -> repository)
    (new : repository) (rows : list repository) (x : repository) :
  In x (fst (upsert_repository on_conflict new rows)) ->
  In x rows \/ x = new \/ exists r0, In r0 rows /\ x = on_conflict r0 new.
Proof.
  induction rows as [|r rows IH]; simpl.
  - intros [<-|[]]. right. now left.
  - destruct (String.eqb (full_name r) (full_name new)).
    + simpl. intros [<-|H].
      * right. right. exists r. split; [now left|reflexivity].
      * left. now right.
    + destruct (upsert_repository on_conflict new rows) as [rows' i]. simpl in *.
      intros [<-|H]; [left; now left|].
      destruct (IH H) as [H1|[H1|(r0 & H1 & H2)]].
      * left. now right.
      * right. now left.
      * right. right. exists r0. split; [now right|exact H2].
Qed.

Lemma same_tests (o n : string) (r : repository) :
  (full_name r = (o ++ "/" ++ n)%string <-> owner r = o /\ name r = n) ->
  (String.eqb (owner r) o && String.eqb (name r) n)%bool
  = String.eqb (full_name r) (o ++ "/" ++ n)%string.
Proof.
  intro H. apply eq_true_iff_eq.
  rewrite andb_true_iff, !String.eqb_eq. symmetry. exact H.
Qed.

(** X25.  A repository registered by [register_repository] is found by
    [get_repository_id] under the id the registration returned, provided
    the names fit their columns and the rows of the registry carry the full
    name [owner/name] exactly when they carry this owner and this name. *)
Theorem registered_repository_is_found_by_owner_and_name :
  forall (o n : string) (d l : option string) (p : bool) (w : world),
    (String.length o <= 255)%nat ->
    (String.length n <= 255)%nat ->
    (String.length (o ++ "/" ++ n) <= 500)%nat ->
    fits_language l ->
    (forall r, In r (repositories w) ->
               (full_name r = (o ++ "/" ++ n)%string <-> owner r = o /\ name r = n)) ->
    exists (i : Z) (w' : world),
      register_repository o n d l p w = (Ok i, w') /\
      get_repository_id o n w' = (Ok (Some i), w').
Proof.
  intros o n d l p w Ho Hn Hf Hl Hrows.
  rewrite (register_ok o n d l p w Ho Hn Hf Hl). cbv zeta.
  set (new := {| repo_id := repositories_seq w + 1; name := n; owner := o;
                 full_name := (o ++ "/" ++ n)%string; description := d;
                 language := l; is_private := p; created_at := current_time w;
                 updated_at := current_time w |}).
  eexists. eexists. split; [reflexivity|].
  unfold get_repository_id, transaction. cbn [repositories].
  destruct (upsert_repository_spec refresh refresh_keeps_identity new (repositories w))
    as (x & Hfind & Hid & _).
  cbv zeta in Hfind.
  rewrite (find_ext_in _ (fun r => String.eqb (full_name r) (full_name new))).
  - rewrite Hfind. simpl. now rewrite Hid.
  - intros r Hr. cbn [full_name new]. apply same_tests.
    destruct (upsert_repository_rows refresh new (repositories w) r Hr)
      as [H|[H|(r0 & H & H0)]].
    + now apply Hrows.
    + subst r. simpl. tauto.
    + subst r. simpl. now apply Hrows.
Qed.

End Lookup.

Lemma registered_repository_witness :
  exists (i : Z) (w' : Legacy.world),
    RepositoryManager.register_repository "x" "r3" None None false
      Examples.two_repositories = (Ok i, w') /\
    RepositoryLookup.get_repository_id "x" "r3" w' = (Ok (Some i), w').
Proof.
  apply registered_repository_is_found_by_owner_and_name.
  - simpl; lia.
  - simpl; lia.
  - simpl; lia.
  - exact I.
  - intros r [<-|[<-|[]]]; vm_compute; split.
    + discriminate.
    + intros [_ H]. discriminate H.
    + discriminate.
    + intros [_ H]. discriminate H.
Defined.

Section SaveWithRepository.

Import Legacy RepositoryManager.

Lemma assoc_dict_set_same (k : string) (v : pyval) (l : list (string * pyval)) :
  assoc k (dict_set k v l) = Some v.
Proof.
  induction l as [|[k' v'] l IH]; simpl.
  - now rewrite String.eqb_refl.
  - destruct (String.eqb k k') eqn:E; simpl.
    + now rewrite String.eqb_refl.
    + rewrite E. exact IH.
Qed.

Lemma assoc_dict_set_other (k k' : string) (v : pyval) (l : list (string * pyval)) :
  k' <> k -> assoc k' (dict_set k v l) = assoc k' l.
Proof.
  intro Hne.
  assert (String.eqb k' k = false) as Hf by now apply String.eqb_neq.
  induction l as [|[k2 v2] l IH]; simpl.
  - now rewrite Hf.
  - destruct (String.eqb k k2) eqn:E; simpl.
    + apply String.eqb_eq in E. subst k2. now rewrite Hf.
    + destruct (String.eqb k' k2); [reflexivity|exact IH].
Qed.

Lemma legacy_proposed_commit_name (p : commit_params) (n t : Z) (new : commit) :
  proposed_commit p n t = Ok new ->
  text_param (p_repository_name p) = Ok (repository_name new).
Proof.
  unfold proposed_commit. intro H.
  repeat match type of H with
         | rbind ?x _ = _ => destruct x; cbn [rbind] in *; try discriminate
         end.
  inversion H; subst. reflexivity.
Qed.

Lemma legacy_commit_params_name (d : pyval) (p : commit_params) :
  commit_params_of d = Ok p ->
  py_get d "repository_name" PNone = Ok (p_repository_name p).
Proof.
  unfold commit_params_of. intro H.
  repeat match type of H with
         | rbind ?x _ = _ => destruct x; cbn [rbind] in *; try discriminate
         end.
  inversion H; subst. reflexivity.
Qed.

Lemma upsert_written_name (new : commit) (rows : list commit) :
  exists c,
    In c (fst (upsert new rows)) /\ id c = snd (upsert new rows) /\
    repository_id c = repository_id new /\
    repository_name c = repository_name new.
Proof.
  induction rows as [|a rows IH]; simpl.
  - exists new. repeat split. now left.
  - destruct (same_key a new) eqn:E; simpl.
    + exists (overwrite a new). unfold same_key in E.
      apply andb_true_iff in E. destruct E as [_ Er].
      repeat split; simpl; auto.
      destruct (repository_id a), (repository_id new); try discriminate.
      apply Z.eqb_eq in Er. now subst.
    + destruct (upsert new rows) as [rows' i]. simpl in *.
      destruct IH as (c & Hin & Hc). exists c. split; [now right|exact Hc].
Qed.

(** X26.  When [save_commit_with_repository] returns, the row it reports is
    linked to the repository [owner/repo_name]: the row carries the id of a
    registered repository of that full name and the repository name, whatever
    the caller's dictionary said about the repository. *)
Theorem saved_commit_is_linked_to_its_repository :
  forall (d : pyval) (o n : string) (w w' : world) (i : Z),
    (String.length o <= 255)%nat ->
    (String.length n <= 255)%nat ->
    (String.length (o ++ "/" ++ n) <= 500)%nat ->
    save_commit_with_repository d o n w = (Ok i, w') ->
    exists (c : commit) (r : repository),
      In c (commits w') /\ id c = i /\
      In r (repositories w') /\ full_name r = (o ++ "/" ++ n)%string /\
      repository_id c = Some (repo_id r) /\ repository_name c = Some n.
Proof.
  intros d o n w w' i Ho Hn Hf H.
  cbv [save_commit_with_repository wrap bind lift
       RepositoryManager.ensure_repository_isolation] in H.
  destruct (Legacy.ensure_repository_isolation o n w) as [[rid|e0] w1] eqn:Ee;
    [|discriminate].
  destruct d; cbn [py_setitem] in H; try discriminate.
  match type of H with
  | match save_commit ?d2 w1 with _ => _ end = _ =>
      destruct (save_commit d2 w1) as [[j|e1] w2] eqn:Es; [|discriminate]
  end.
  inversion H; subst j w2. clear H.
  destruct (legacy_save_commit_inv _ _ _ _ Es) as (p & new & Hp & Hnew & Hc & Hi & Hr).
  destruct (commit_params_key _ _ Hp) as [_ Hri].
  pose proof (legacy_commit_params_name _ _ Hp) as Hrn.
  unfold py_get in Hri, Hrn.
  rewrite assoc_dict_set_other in Hri by discriminate.
  rewrite assoc_dict_set_same in Hri, Hrn.
  inversion Hri as [Hpi]. inversion Hrn as [Hpn]. clear Hri Hrn.
  destruct (proposed_commit_key _ _ _ _ Hnew) as [_ Hid].
  pose proof (legacy_proposed_commit_name _ _ _ _ Hnew) as Hname.
  rewrite <- Hpi in Hid. rewrite <- Hpn in Hname.
  simpl in Hid, Hname. inversion Hid as [Hid']. inversion Hname as [Hname'].
  destruct (upsert_written_name new (commits w1)) as (c & Hin & Hcid & Hcr & Hcn).
  destruct (ensure_inv o n w w1 rid Ho Hn Hf Ee) as (Hrepos & Hrid & _).
  cbv zeta in Hrepos, Hrid.
  match type of Hrepos with
  | _ = fst (upsert_repository touch ?nr _) =>
      destruct (upsert_repository_spec touch touch_keeps_identity nr (repositories w))
        as (x & Hfind & Hx & _)
  end.
  cbv zeta in Hfind. apply find_some in Hfind. destruct Hfind as [Hxin Hxf].
  apply String.eqb_eq in Hxf. simpl in Hxf.
  exists c, x. repeat split.
  - now rewrite Hc.
  - now rewrite Hi.
  - now rewrite Hr, Hrepos.
  - exact Hxf.
  - rewrite Hcr, <- Hid', Hx, <- Hrid. reflexivity.
  - now rewrite Hcn, <- Hname'.
Qed.



End SaveWithRepository.

Lemma saved_commit_is_linked_witness :
  let d := Examples.commit_for "deadbeef" PNone "Ada" "other" in
  let w := Examples.two_repositories in
  let w' := snd (RepositoryManager.save_commit_with_repository d "x" "r1" w) in
  exists (c : Legacy.commit) (r : Legacy.repository),
    In c (Legacy.commits w') /\ Legacy.id c = 1%Z /\
    In r (Legacy.repositories w') /\ Legacy.full_name r = "x/r1" /\
    Legacy.repository_id c = Some (Legacy.repo_id r) /\
    Legacy.repository_name c = Some "r1".
Proof.
  intros d w w'.
  apply (saved_commit_is_linked_to_its_repository d "x" "r1" w w' 1%Z).
  - simpl; lia.
  - simpl; lia.
  - simpl; lia.
  - vm_compute. reflexivity.
Defined.



Section Migration.

Import Legacy LegacyMaintenance.




End Migration.

